(** * api_server.py: the retrieval-augmented chat backend, embedded in Rocq

    The module keeps three process-wide dictionaries (uploaded_files,
    vector_stores, chat_sessions) and serves them through HTTP handlers.
    The dictionaries become finite maps of one [State] record that every
    handler threads explicitly; Python exceptions become the [Raise] case of
    a result type, and the remote services the handlers talk to (the model
    gateway of custom_langchain, the FAISS similarity search, the PDF
    ingestion, the operating system) are the fields of an [Env] record. *)

From Stdlib Require Import ZArith Lia Ascii.
From stdpp Require Import gmap strings list.

(** ** Exceptions and results *)

(** The exception classes the handlers can meet.  [ExternalError] stands for
    whatever a collaborator outside the module raises (network failure of the
    model endpoint, an embedding error, an OSError). *)
Inductive exn : Type :=
  | FileNotFoundError (msg : string)
  | ValueError (msg : string)
  | JSONDecodeError (msg : string)
  | KeyError (key : string)
  | TypeError (msg : string)
  | ExternalError (msg : string).

(** repr of a str, as KeyError and the repr of a list print it: apostrophes
    around the text, or double quotes when the text holds an apostrophe and
    no double quote; the backslash, the chosen quote and the control
    characters are escaped.  Bytes above 127 (UTF-8 of printable characters)
    go through as they are. *)
Definition hex_digit (n : nat) : Ascii.ascii :=
  nth n (String.list_ascii_of_string "0123456789abcdef") "0"%char.

Definition repr_char (quote c : Ascii.ascii) : string :=
  let n := Ascii.nat_of_ascii c in
  if Ascii.eqb c "092"%char then String "092"%char (String "092"%char "")
  else if Ascii.eqb c quote then String "092"%char (String quote "")
  else if n =? 10 then String "092"%char "n"
  else if n =? 13 then String "092"%char "r"
  else if n =? 9 then String "092"%char "t"
  else if (n <? 32) || (n =? 127) then
    String "092"%char
      (String "x"%char (String (hex_digit (n / 16)) (String (hex_digit (n mod 16)) "")))
  else String c "".

Fixpoint repr_body (quote : Ascii.ascii) (s : string) : string :=
  match s with
  | "" => ""
  | String c r => repr_char quote c +:+ repr_body quote r
  end.

Definition has_char (c : Ascii.ascii) (s : string) : bool :=
  existsb (Ascii.eqb c) (String.list_ascii_of_string s).

Definition repr_str (s : string) : string :=
  let quote := if has_char "039"%char s && negb (has_char "034"%char s)
               then "034"%char else "039"%char in
  String quote (repr_body quote s +:+ String quote "").

(** repr of a list of str. *)
Definition repr_list (l : list string) : string :=
  "[" +:+ String.concat ", " (map repr_str l) +:+ "]".

(** str(e) *)
Definition str_exn (e : exn) : string :=
  match e with
  | FileNotFoundError m | ValueError m | JSONDecodeError m | TypeError m
  | ExternalError m => m
  | KeyError k => repr_str k
  end.

Inductive result (A : Type) : Type :=
  | Ok (a : A)
  | Raise (e : exn).
Arguments Ok {A} a.
Arguments Raise {A} e.

(** What a handler hands back to FastAPI: a body, or a raised HTTPException. *)
Inductive http (A : Type) : Type :=
  | Http200 (body : A)
  | HTTPException (status_code : Z) (detail : string).
Arguments Http200 {A} body.
Arguments HTTPException {A} status_code detail.

(** ** Data model *)

(** langchain.schema messages; only these two classes are ever appended. *)
Inductive Message : Type :=
  | HumanMessage (content : string)
  | AIMessage (content : string).

Definition content (m : Message) : string :=
  match m with HumanMessage c | AIMessage c => c end.

(** isinstance(m, HumanMessage) *)
Definition is_human (m : Message) : bool :=
  match m with HumanMessage _ => true | AIMessage _ => false end.

(** A datetime, kept as the ISO-8601 text that isoformat() prints. *)
Definition datetime : Type := string.

(** MyDualEndpointLLM(secret_key=..., non_stream_url=..., stream_url=...) *)
Record LLM : Type := mkLLM {
  secret_key : string;
  non_stream_url : string;
  stream_url : string
}.

(** One value of chat_sessions.  "memory" is the message list of the
    ConversationBufferMemory (memory.chat_memory.messages). *)
Record Session : Type := mkSession {
  memory : list Message;
  llm : LLM;
  created_at : datetime;
  message_count : Z
}.

(** One value of uploaded_files. *)
Record FileInfo : Type := mkFileInfo {
  path : string;
  file_size : Z   (* the "size" key *)
}.

(** A retrieved or stored chunk (langchain Document); only page_content is
    read by the handlers. *)
Record Document : Type := mkDocument {
  page_content : string
}.

(** A FAISS store: the chunks it was built from.  The search structure is
    the library's and is reached through [Env]. *)
Record FAISS : Type := mkFAISS {
  chunks : list Document
}.

(** The module globals, plus the part of the file system the module reads and
    writes (the set of paths that exist). *)
Record State : Type := mkState {
  uploaded_files : gmap string FileInfo;
  vector_stores : gmap string FAISS;
  chat_sessions : gmap string Session;
  disk : gset string
}.

(** JSON values: what json.dumps is handed and what json.load returns; an
    object keeps its keys in insertion order, as a Python dict does.  A
    number is kept as its literal. *)
#[warnings="-register-all"]
Inductive json : Type :=
  | JNull
  | JNum (literal : string)
  | JStr (s : string)
  | JBool (b : bool)
  | JList (items : list json)
  | JObject (fields : list (string * json)).

(** keys.txt as load_config meets it: absent, unreadable as JSON, or what
    json.load makes of it: a dict (with string values), a list, a str, or a
    scalar (a number, true, false, null), on which the membership test of
    load_config raises the TypeError whose text is [msg]. *)
Inductive keys_file : Type :=
  | KeysAbsent
  | KeysInvalid (msg : string)
  | KeysObject (config : gmap string string)
  | KeysArray (items : list json)
  | KeysString (text : string)
  | KeysScalar (msg : string).

(** What load_config returns: the parsed value, whatever container it is. *)
Inductive config_value : Type :=
  | ConfigObject (config : gmap string string)
  | ConfigArray (items : list json)
  | ConfigString (text : string).

(** Everything outside the module.  The model client's two capabilities come
    from custom_langchain, which is not part of api_server.py: a blocking
    call, and an incremental call that yields some fragments and then either
    stops or raises. *)
Record Env : Type := mkEnv {
  keys_txt : keys_file;
  llm_invoke : LLM -> string -> result string;
  llm_stream : LLM -> string -> list string * option exn;
  (* vector_store.as_retriever(search_kwargs={"k": k}).get_relevant_documents(q) *)
  get_relevant_documents : FAISS -> nat -> string -> result (list Document);
  (* RetrievalQA.from_chain_type(...).invoke(question): answer, source documents *)
  qa_chain_invoke : LLM -> FAISS -> nat -> string -> result (string * list Document);
  (* loader + splitter + embedding + FAISS.from_documents *)
  faiss_from_pdf : list Z -> result FAISS;
  (* open(path, "wb") failing: no file is created *)
  os_open_error : string -> option exn;
  (* f.write failing on the file just opened *)
  os_write_error : string -> option exn;
  (* os.remove failing *)
  os_remove_error : string -> option exn
}.

(** ** The state-and-exception monad of the handlers

    A raised exception leaves the dictionaries as they were at the raise:
    nothing is rolled back. *)
Definition M (A : Type) : Type := State -> result A * State.

Definition ret {A} (a : A) : M A := fun st => (Ok a, st).
Definition raise {A} (e : exn) : M A := fun st => (Raise e, st).
Definition bind {A B} (m : M A) (k : A -> M B) : M B :=
  fun st => match m st with
            | (Ok a, st') => k a st'
            | (Raise e, st') => (Raise e, st')
            end.
Definition lift {A} (r : result A) : M A := fun st => (r, st).
Definition get_state : M State := fun st => (Ok st, st).

Notation "'let*' x ':=' m 'in' k" := (bind m (fun x => k))
  (at level 10, x pattern, m at level 100, k at level 200).

(** ** Helper functions of the module *)

Definition required_keys : list string :=
  ["API_KEY"; "AI_Agent_URL"; "AI_Agent_Stream_URL"].

(** needle in hay, for two str: the substring test. *)
Fixpoint is_substring (needle hay : string) : bool :=
  String.prefix needle hay ||
  match hay with
  | "" => false
  | String _ rest => is_substring needle rest
  end.

(** key in config: a key of the dict, an element of the list equal to the
    key, or a substring of the str. *)
Definition key_in (key : string) (config : config_value) : bool :=
  match config with
  | ConfigObject c => bool_decide (is_Some (c !! key))
  | ConfigArray items =>
      existsb (fun item => match item with
                           | JStr s => String.eqb s key
                           | _ => false
                           end) items
  | ConfigString text => is_substring key text
  end.

(** [key for key in required_keys if key not in config] *)
Definition missing_keys (config : config_value) : list string :=
  filter (fun key => key_in key config = false) required_keys.

(** The statements of load_config after json.load. *)
Definition check_required_keys (config : config_value) : result config_value :=
  match missing_keys config with
  | [] => Ok config
  | missing => Raise (ValueError ("Missing keys in keys.txt: " +:+ repr_list missing))
  end.

Definition load_config (env : Env) : result config_value :=
  match keys_txt env with
  | KeysAbsent =>
      Raise (FileNotFoundError
               "keys.txt not found. Please create it with your API configuration.")
  | KeysInvalid msg => Raise (JSONDecodeError msg)
  | KeysScalar msg => Raise (TypeError msg)
  | KeysObject config => check_required_keys (ConfigObject config)
  | KeysArray items => check_required_keys (ConfigArray items)
  | KeysString text => check_required_keys (ConfigString text)
  end.

(** config[key] for a key known to be present; the default is never reached
    after load_config has succeeded. *)
Definition config_get (config : gmap string string) (key : string) : string :=
  default "" (config !! key).

(** LLM(secret_key=config["API_KEY"], non_stream_url=config["AI_Agent_URL"],
    stream_url=config["AI_Agent_Stream_URL"]).  The first subscript already
    raises on a list or a str (the texts are those of Python 3.11 and
    later); on a dict, building the client is taken to succeed once the
    three values are there. *)
Definition make_llm (config : config_value) : result LLM :=
  match config with
  | ConfigObject c =>
      Ok {| secret_key := config_get c "API_KEY";
            non_stream_url := config_get c "AI_Agent_URL";
            stream_url := config_get c "AI_Agent_Stream_URL" |}
  | ConfigArray _ => Raise (TypeError "list indices must be integers or slices, not str")
  | ConfigString _ => Raise (TypeError "string indices must be integers, not 'str'")
  end.

(** The dict stored for a new session id, around its model client. *)
Definition session_with (client : LLM) (now : datetime) : Session :=
  {| memory := [];
     llm := client;
     created_at := now;
     message_count := 0 |}.

(** The session that a dict configuration gives. *)
Definition new_session (config : gmap string string) (now : datetime) : Session :=
  session_with {| secret_key := config_get config "API_KEY";
                  non_stream_url := config_get config "AI_Agent_URL";
                  stream_url := config_get config "AI_Agent_Stream_URL" |} now.

Definition set_chat_sessions (f : gmap string Session -> gmap string Session)
    (st : State) : State :=
  {| uploaded_files := uploaded_files st;
     vector_stores := vector_stores st;
     chat_sessions := f (chat_sessions st);
     disk := disk st |}.

(** get_or_create_session; [now] is what datetime.now() returns if asked. *)
Definition get_or_create_session (env : Env) (now : datetime) (session_id : string)
    : M Session :=
  fun st =>
    match chat_sessions st !! session_id with
    | Some session => (Ok session, st)
    | None =>
        match load_config env with
        | Raise e => (Raise e, st)
        | Ok config =>
            match make_llm config with
            | Raise e => (Raise e, st)
            | Ok client =>
                let session := session_with client now in
                (Ok session, set_chat_sessions (insert session_id session) st)
            end
        end
    end.

(** history_messages[-10:] *)
Definition last_n {A} (n : nat) (l : list A) : list A :=
  skipn (length l - n) l.

(** f"{'User' if isinstance(m, HumanMessage) else 'Assistant'}: {m.content}" *)
Definition render_message (m : Message) : string :=
  (if is_human m then "User" else "Assistant") +:+ ": " +:+ content m.

Definition newline : string := String (Ascii.ascii_of_nat 10) "".

Definition history_text (history_messages : list Message) : string :=
  match history_messages with
  | [] => ""
  | _ => newline +:+ newline +:+ "Previous conversation:" +:+ newline +:+
         String.concat newline (map render_message (last_n 10 history_messages))
  end.

Definition system_instruction : string :=
  "You are an AI assistant specialized ONLY in summarizing a text/pdf, comparing two text snippets/pdfs, " +:+
  "and answering questions based on the provided PDF document context." +:+ newline +:+
  "DO NOT answer questions unrelated to the PDFs or these tasks." +:+ newline +:+
  "If a question is outside your scope, respond politely with: " +:+
  "'Sorry, I can only assist with information from the PDFs provided.'" +:+ newline +:+ newline.

(** Python truthiness of a str. *)
Definition truthy (s : string) : bool :=
  match s with "" => false | _ => true end.

Definition build_strict_prompt (context : string) (history_messages : list Message)
    (user_message : string) : string :=
  if truthy context then
    system_instruction +:+
    ("Document Context:" +:+ newline +:+ context +:+ newline +:+ newline) +:+
    history_text history_messages +:+ newline +:+ newline +:+
    ("User: " +:+ user_message +:+ newline +:+ newline +:+ "Assistant:")
  else
    system_instruction +:+
    history_text history_messages +:+ newline +:+ newline +:+
    ("User: " +:+ user_message +:+ newline +:+ newline +:+ "Assistant:").

(** ** Request and response models *)

Record ChatMessageRequest : Type := mkChatMessageRequest {
  message : string;
  session_id : string;
  filename : option string
}.

Record ChatMessageResponse : Type := mkChatMessageResponse {
  resp_content : string;
  resp_sources : option (list string);
  resp_session_id : string;
  resp_success : bool
}.

Record QuestionRequest : Type := mkQuestionRequest {
  question : string;
  q_filename : string
}.

Record QuestionResponse : Type := mkQuestionResponse {
  answer : string;
  source_chunks : list string
}.

(** The dict delete_file returns. *)
Record DeleteResponse : Type := mkDeleteResponse {
  del_success : bool;
  del_message : option string
}.

(** One entry of the "messages" list of get_chat_history. *)
Record HistoryEntry : Type := mkHistoryEntry {
  role : string;
  entry_content : string;
  timestamp : string
}.

(** The dict health_check returns. *)
Record HealthResponse : Type := mkHealthResponse {
  status : string;
  n_uploaded_files : nat;
  active_sessions : nat;
  ai_service_configured : bool;
  health_error : option string
}.

(** The dict upload_pdf returns. *)
Record UploadResponse : Type := mkUploadResponse {
  up_success : bool;
  up_message : string;
  up_filename : string
}.

(** What generate_stream yields: f"data: {json.dumps(payload)}\n\n", or the
    literal "data: [DONE]\n\n". *)
Inductive sse : Type :=
  | SseData (payload : json)
  | SseDone.

(** Python truthiness of request.filename (Optional[str]). *)
Definition names_file (filename : option string) : option string :=
  match filename with
  | Some f => if truthy f then Some f else None
  | None => None
  end.

(** ** Handlers *)

Definition set_uploaded_files (f : gmap string FileInfo -> gmap string FileInfo)
    (st : State) : State :=
  {| uploaded_files := f (uploaded_files st);
     vector_stores := vector_stores st;
     chat_sessions := chat_sessions st;
     disk := disk st |}.

Definition set_vector_stores (f : gmap string FAISS -> gmap string FAISS)
    (st : State) : State :=
  {| uploaded_files := uploaded_files st;
     vector_stores := f (vector_stores st);
     chat_sessions := chat_sessions st;
     disk := disk st |}.

Definition set_disk (f : gset string -> gset string) (st : State) : State :=
  {| uploaded_files := uploaded_files st;
     vector_stores := vector_stores st;
     chat_sessions := chat_sessions st;
     disk := f (disk st) |}.

Definition delete_file (env : Env) (filename : string)
    : State -> DeleteResponse * State :=
  fun st =>
    let file_info := uploaded_files st !! filename in
    let st1 := set_uploaded_files (delete filename) st in
    let st2 := set_vector_stores (delete filename) st1 in
    match file_info with
    | Some info =>
        if bool_decide (path info ∈ disk st2) then
          match os_remove_error env (path info) with
          | None =>
              ({| del_success := true; del_message := None |},
               set_disk (fun d => d ∖ {[path info]}) st2)
          | Some e =>
              ({| del_success := false;
                  del_message := Some ("Error deleting file: " +:+ str_exn e) |}, st2)
          end
        else ({| del_success := false; del_message := Some "File not found" |}, st2)
    | None => ({| del_success := false; del_message := Some "File not found" |}, st2)
    end.

(** The retrieval block that chat_message (with k = 3) and generate_stream
    share word for word: context and sources start empty and are filled from
    the named document's store. *)
Definition retrieve_context (env : Env) (request : ChatMessageRequest)
    : M (string * list string) :=
  match names_file (filename request) with
  | Some f =>
      let* st := get_state in
      match vector_stores st !! f with
      | None => raise (KeyError f)
      | Some vector_store =>
          let* relevant_docs :=
            lift (get_relevant_documents env vector_store 3 (message request)) in
          ret (String.concat (newline +:+ newline) (map page_content relevant_docs),
               map page_content relevant_docs)
      end
  | None => ret ("", [])
  end.

(** memory.chat_memory.add_user_message(message);
    memory.chat_memory.add_ai_message(response);
    session["message_count"] += 1
    The session dict is the object stored in chat_sessions, so the update is
    seen through the map. *)
Definition record_turn (user_message response : string) (s : Session) : Session :=
  {| memory := memory s ++ [HumanMessage user_message; AIMessage response];
     llm := llm s;
     created_at := created_at s;
     message_count := (message_count s + 1)%Z |}.

Definition commit_turn (session_id user_message response : string) : M unit :=
  fun st =>
    (Ok tt, set_chat_sessions (alter (record_turn user_message response) session_id) st).

(** The try block of chat_message. *)
Definition chat_message_body (env : Env) (now : datetime)
    (request : ChatMessageRequest) : M ChatMessageResponse :=
  let* session := get_or_create_session env now (session_id request) in
  let* (context, sources) := retrieve_context env request in
  let prompt := build_strict_prompt context (memory session) (message request) in
  let* response := lift (llm_invoke env (llm session) prompt) in
  let* _ := commit_turn (session_id request) (message request) response in
  ret {| resp_content := response;
         resp_sources := Some sources;
         resp_session_id := session_id request;
         resp_success := true |}.

Definition chat_message (env : Env) (now : datetime) (request : ChatMessageRequest)
    : State -> http ChatMessageResponse * State :=
  fun st =>
    match names_file (filename request) with
    | Some f =>
        match vector_stores st !! f with
        | None => (HTTPException 400 "PDF not found. Upload before chatting.", st)
        | Some _ =>
            match chat_message_body env now request st with
            | (Ok r, st') => (Http200 r, st')
            | (Raise e, st') => (HTTPException 500 ("Chat error: " +:+ str_exn e), st')
            end
        end
    | None =>
        match chat_message_body env now request st with
        | (Ok r, st') => (Http200 r, st')
        | (Raise e, st') => (HTTPException 500 ("Chat error: " +:+ str_exn e), st')
        end
    end.

(** {'content': chunk} *)
Definition chunk_event (chunk : string) : sse :=
  SseData (JObject [("content", JStr chunk)]).

(** final_response *)
Definition final_event (full_response : string) (sources : list string)
    (session_id : string) : sse :=
  SseData (JObject [("content", JStr full_response);
                    ("sources", JList (map JStr sources));
                    ("session_id", JStr session_id);
                    ("success", JBool true)]).

(** error_response *)
Definition error_event (e : exn) (session_id : string) : sse :=
  SseData (JObject [("content", JStr ("Error: " +:+ str_exn e));
                    ("session_id", JStr session_id);
                    ("success", JBool false)]).

(** The statements of generate_stream that run before the model is called. *)
Definition stream_prelude (env : Env) (now : datetime) (request : ChatMessageRequest)
    : M (Session * list string * string) :=
  let* session := get_or_create_session env now (session_id request) in
  let* (context, sources) := retrieve_context env request in
  ret (session, sources,
       build_strict_prompt context (memory session) (message request)).

(** chat_message_stream.generate_stream, run to exhaustion: the events it
    yields, in order, and the state it leaves.  No validation precedes the
    try block.  The failures of [Env] are Exceptions, which the handler
    catches; a cancelled request (CancelledError, GeneratorExit) is not an
    Exception, is not caught, and is not a run to exhaustion. *)
Definition generate_stream (env : Env) (now : datetime) (request : ChatMessageRequest)
    : State -> list sse * State :=
  fun st =>
    match stream_prelude env now request st with
    | (Raise e, st1) => ([error_event e (session_id request); SseDone], st1)
    | (Ok (session, sources, prompt), st1) =>
        let '(response_chunks, failure) := llm_stream env (llm session) prompt in
        match failure with
        | Some e =>
            (map chunk_event response_chunks ++
               [error_event e (session_id request); SseDone], st1)
        | None =>
            let full_response := String.concat "" response_chunks in
            (map chunk_event response_chunks ++
               [final_event full_response sources (session_id request); SseDone],
             snd (commit_turn (session_id request) (message request) full_response st1))
        end
    end.

Definition history_entry (created : datetime) (m : Message) : HistoryEntry :=
  {| role := if is_human m then "user" else "assistant";
     entry_content := content m;
     timestamp := created |}.

(** get_chat_history: the "messages" list. *)
Definition get_chat_history (session_id : string) (st : State) : list HistoryEntry :=
  match chat_sessions st !! session_id with
  | None => []
  | Some session => map (history_entry (created_at session)) (memory session)
  end.

(** clear_chat_session; always answers {"success": True}. *)
Definition clear_chat_session (session_id : string) (st : State) : State :=
  set_chat_sessions (delete session_id) st.

(** The try block of ask_question. *)
Definition ask_question_body (env : Env) (request : QuestionRequest)
    : M QuestionResponse :=
  let* config := lift (load_config env) in
  let* haiku_llm := lift (make_llm config) in
  let* st := get_state in
  match vector_stores st !! q_filename request with
  | None => raise (KeyError (q_filename request))
  | Some vector_store =>
      let* (answer, source_documents) :=
        lift (qa_chain_invoke env haiku_llm vector_store 5 (question request)) in
      ret {| answer := answer; source_chunks := map page_content source_documents |}
  end.

Definition ask_question (env : Env) (request : QuestionRequest)
    : State -> http QuestionResponse * State :=
  fun st =>
    match vector_stores st !! q_filename request with
    | None => (HTTPException 400 "PDF not found. Please upload first.", st)
    | Some _ =>
        match ask_question_body env request st with
        | (Ok r, st') => (Http200 r, st')
        | (Raise e, st') =>
            (HTTPException 500 ("Error processing question: " +:+ str_exn e), st')
        end
    end.

Definition health_check (env : Env) (st : State) : HealthResponse :=
  match load_config env with
  | Ok _ =>
      {| status := "healthy";
         n_uploaded_files := size (uploaded_files st);
         active_sessions := size (chat_sessions st);
         ai_service_configured := true;
         health_error := None |}
  | Raise e =>
      {| status := "degraded";
         n_uploaded_files := size (uploaded_files st);
         active_sessions := size (chat_sessions st);
         ai_service_configured := false;
         health_error := Some (str_exn e) |}
  end.

Definition TMP_FOLDER : string := "./tmp_uploads".

(** str.lower(), on the ASCII letters. *)
Definition lower_ascii (c : Ascii.ascii) : Ascii.ascii :=
  let n := Ascii.nat_of_ascii c in
  if (65 <=? n) && (n <=? 90) then Ascii.ascii_of_nat (n + 32) else c.

Fixpoint lower (s : string) : string :=
  match s with
  | "" => ""
  | String c r => String (lower_ascii c) (lower r)
  end.

(** s.endswith(suffix) *)
Definition endswith (s suffix : string) : bool :=
  (String.length suffix <=? String.length s) &&
  String.eqb (String.substring (String.length s - String.length suffix)
                               (String.length suffix) s) suffix.

(** os.path.basename on a POSIX path: what follows the last slash. *)
Fixpoint basename (p : string) : string :=
  match p with
  | "" => ""
  | String c r =>
      if Ascii.eqb c "/"%char then basename r
      else if existsb (Ascii.eqb "/"%char) (String.list_ascii_of_string r) then basename r
      else p
  end.

Definition MAX_SIZE : Z := 10 * 1024 * 1024.

(** The try block of upload_pdf.  os.path.join(TMP_FOLDER, name) for a name
    without a slash.  open(file_path, "wb") puts the file on disk before
    anything is written, so a write that fails leaves it there. *)
Definition upload_pdf_body (env : Env) (file_name : string) (content : list Z)
    : M UploadResponse :=
  let sanitized_filename := basename file_name in
  let file_path := TMP_FOLDER +:+ "/" +:+ sanitized_filename in
  let* _ := (fun st => match os_open_error env file_path with
                       | Some e => (Raise e, st)
                       | None => (Ok tt, set_disk (fun d => d ∪ {[file_path]}) st)
                       end) in
  let* _ := (fun st => match os_write_error env file_path with
                       | Some e => (Raise e, st)
                       | None => (Ok tt, st)
                       end) in
  let* vector_store := lift (faiss_from_pdf env content) in
  let* _ := (fun st =>
               (Ok tt, set_vector_stores (insert sanitized_filename vector_store) st)) in
  let* _ := (fun st =>
               (Ok tt, set_uploaded_files
                         (insert sanitized_filename
                                 {| path := file_path; file_size := Z.of_nat (length content) |}) st)) in
  ret {| up_success := true;
         up_message := "PDF '" +:+ sanitized_filename +:+ "' uploaded and processed.";
         up_filename := sanitized_filename |}.

Definition upload_pdf (env : Env) (file_name : option string) (content : list Z)
    : State -> http UploadResponse * State :=
  fun st =>
    match names_file file_name with
    | None => (HTTPException 400 "Only PDF files are allowed.", st)
    | Some name =>
        if negb (endswith (lower name) ".pdf") then
          (HTTPException 400 "Only PDF files are allowed.", st)
        else if (MAX_SIZE <? Z.of_nat (length content))%Z then
          (HTTPException 400 "PDF file too large (max 10MB).", st)
        else
          match upload_pdf_body env name content st with
          | (Ok r, st') => (Http200 r, st')
          | (Raise e, st') =>
              (HTTPException 500 ("Error processing PDF: " +:+ str_exn e), st')
          end
    end.

(** What importing the module does: the three dictionaries start empty and
    os.makedirs(TMP_FOLDER, exist_ok=True) runs; [fs] is what was on disk
    before.  keys.txt is not opened here, so [env] is not consulted. *)
Definition startup (env : Env) (fs : gset string) : result State :=
  Ok {| uploaded_files := ∅;
        vector_stores := ∅;
        chat_sessions := ∅;
        disk := fs ∪ {[TMP_FOLDER]} |}.

(** ** Request traces *)

Inductive ApiCall : Type :=
  | CallRoot
  | CallHealth
  | CallUpload (file_name : option string) (content : list Z)
  | CallDelete (filename : string)
  | CallChat (now : datetime) (request : ChatMessageRequest)
  | CallChatStream (now : datetime) (request : ChatMessageRequest)
  | CallHistory (session_id : string)
  | CallClear (session_id : string)
  | CallAsk (request : QuestionRequest).

(** The state one request leaves behind. *)
Definition serve (env : Env) (call : ApiCall) (st : State) : State :=
  match call with
  | CallRoot => st
  | CallHealth => st
  | CallUpload file_name content => snd (upload_pdf env file_name content st)
  | CallDelete f => snd (delete_file env f st)
  | CallChat now request => snd (chat_message env now request st)
  | CallChatStream now request => snd (generate_stream env now request st)
  | CallHistory _ => st
  | CallClear sid => clear_chat_session sid st
  | CallAsk request => snd (ask_question env request st)
  end.

Definition serve_all (env : Env) (calls : list ApiCall) (st : State) : State :=
  fold_left (fun s call => serve env call s) calls st.

(** ** The prompt's three parts, as the specification words them *)

Definition refusal_sentence : string :=
  "Sorry, I can only assist with information from the PDFs provided.".

(** The line feed character, as a one-character text. *)
Definition line_feed : string := String "010"%char "".

(** (b) the document context block, present only for a non-empty context *)
Definition context_block (context : string) : string :=
  match context with
  | "" => ""
  | _ => "Document Context:" +:+ line_feed +:+ context +:+ line_feed +:+ line_feed
  end.

Definition new_user_turn (user_message : string) : string :=
  "User: " +:+ user_message +:+ line_feed +:+ line_feed +:+ "Assistant:".

(** One message of the history on its line: who spoke, then what was said. *)
Definition rendered_line (m : Message) : string :=
  match m with
  | HumanMessage said => "User: " +:+ said
  | AIMessage said => "Assistant: " +:+ said
  end.

(** The rendered history: nothing for an empty history; otherwise a blank
    line, the heading, and the last ten messages, one per line, oldest
    first. *)
Definition rendered_history (history_messages : list Message) : string :=
  match history_messages with
  | [] => ""
  | _ =>
      line_feed +:+ line_feed +:+ "Previous conversation:" +:+ line_feed +:+
      String.concat line_feed
        (map rendered_line (drop (length history_messages - 10) history_messages))
  end.

(** (c) the rendered history followed by the new user turn *)
Definition conversation_block (history_messages : list Message)
    (user_message : string) : string :=
  rendered_history history_messages +:+ line_feed +:+ line_feed +:+
  new_user_turn user_message.

(** ** Vector index registry and retriever *)

Module Retriever.

(** The outcome of a retrieval: the chunk texts, or the DocumentNotFound
    failure. *)
Inductive retrieval : Type :=
  | Retrieved (texts : list string)
  | DocumentNotFound.

Section Ranking.

(** The similarity between the embedding of the query and the embedding of
    a chunk, in the embedding function's own metric; larger is closer. *)
Variable similarity : string -> Document -> Z.

(** Modelled from the spec: one step of ranking "by descending
    similarity"; a chunk goes behind the chunks that beat it and in front
    of the others, so ties keep the index order. *)
Fixpoint insert_ranked (query : string) (c : Document) (ranked : list Document)
    : list Document :=
  match ranked with
  | [] => [c]
  | d :: rest =>
      if (similarity query c <? similarity query d)%Z
      then d :: insert_ranked query c rest
      else c :: d :: rest
  end.

(** Modelled from the spec: the chunks "ranked by descending similarity"
    to the query (non-increasing, §8). *)
Definition rank (query : string) (index : list Document) : list Document :=
  foldr (insert_ranked query) [] index.

(** Modelled from the spec: the similarity search itself belongs to the
    FAISS library and is only called from api_server.py.  Following §4.2
    and the glossary entry for top-K retrieval: the chunks of the
    document's index are ranked by descending similarity to the query and
    the K most similar are returned as texts; an absent document id is the
    DocumentNotFound failure. *)
Definition topK (registry : gmap string FAISS) (id queryText : string) (k : nat)
    : retrieval :=
  match registry !! id with
  | None => DocumentNotFound
  | Some index => Retrieved (map page_content (take k (rank queryText (chunks index))))
  end.

(** Every chunk is at least as similar to the query as those after it. *)
Definition descending (query : string) (l : list Document) : Prop :=
  forall i j a b, i < j -> l !! i = Some a -> l !! j = Some b ->
    (similarity query b <= similarity query a)%Z.

End Ranking.

End Retriever.

(** ** Concrete collaborators and states used to exercise the handlers *)

Definition complete_config : gmap string string :=
  {[ "API_KEY" := "secret";
     "AI_Agent_URL" := "https://model.example/invoke";
     "AI_Agent_Stream_URL" := "https://model.example/stream" ]}.

(** An environment whose model answers [invoke] to the blocking call and
    [stream] to the incremental one, whose retriever returns the first k
    chunks of the store, and whose file system never fails. *)
Definition sample_env (keys : keys_file) (invoke : result string)
    (stream : list string * option exn) : Env :=
  {| keys_txt := keys;
     llm_invoke := fun _ _ => invoke;
     llm_stream := fun _ _ => stream;
     get_relevant_documents := fun store k _ => Ok (take k (chunks store));
     qa_chain_invoke := fun _ store k _ =>
       match invoke with
       | Ok a => Ok (a, take k (chunks store))
       | Raise e => Raise e
       end;
     faiss_from_pdf := fun _ => Ok {| chunks := [ {| page_content := "chunk" |} ] |};
     os_open_error := fun _ => None;
     os_write_error := fun _ => None;
     os_remove_error := fun _ => None |}.

Definition empty_state : State :=
  {| uploaded_files := ∅; vector_stores := ∅; chat_sessions := ∅;
     disk := {[TMP_FOLDER]} |}.

Definition sample_llm : LLM :=
  {| secret_key := "secret";
     non_stream_url := "https://model.example/invoke";
     stream_url := "https://model.example/stream" |}.

(** A session that already holds one turn. *)
Definition sample_session : Session :=
  {| memory := [HumanMessage "hello"; AIMessage "hi there"];
     llm := sample_llm;
     created_at := "2024-01-01T00:00:00";
     message_count := 1 |}.

Definition state_with_session : State :=
  {| uploaded_files := ∅; vector_stores := ∅;
     chat_sessions := {[ "s1" := sample_session ]};
     disk := {[TMP_FOLDER]} |}.

(** One uploaded document, "a.pdf", with a two-chunk index. *)
Definition state_with_document : State :=
  {| uploaded_files := {[ "a.pdf" := {| path := "./tmp_uploads/a.pdf"; file_size := 42 |} ]};
     vector_stores :=
       {[ "a.pdf" := {| chunks := [ {| page_content := "first chunk" |};
                                    {| page_content := "second chunk" |} ] |} ]};
     chat_sessions := ∅;
     disk := {[TMP_FOLDER; "./tmp_uploads/a.pdf"]} |}.

(** A session whose history is longer than the prompt window: six turns. *)
Definition long_session : Session :=
  {| memory := [HumanMessage "q1"; AIMessage "a1"; HumanMessage "q2"; AIMessage "a2";
                HumanMessage "q3"; AIMessage "a3"; HumanMessage "q4"; AIMessage "a4";
                HumanMessage "q5"; AIMessage "a5"; HumanMessage "q6"; AIMessage "a6"];
     llm := sample_llm;
     created_at := "2024-01-01T00:00:00";
     message_count := 6 |}.

Definition state_with_long_session : State :=
  {| uploaded_files := ∅; vector_stores := ∅;
     chat_sessions := {[ "s2" := long_session ]};
     disk := {[TMP_FOLDER]} |}.

(** [env], except that os.remove raises [e]. *)
Definition with_remove_error (e : exn) (env : Env) : Env :=
  {| keys_txt := keys_txt env;
     llm_invoke := llm_invoke env;
     llm_stream := llm_stream env;
     get_relevant_documents := get_relevant_documents env;
     qa_chain_invoke := qa_chain_invoke env;
     faiss_from_pdf := faiss_from_pdf env;
     os_open_error := os_open_error env;
     os_write_error := os_write_error env;
     os_remove_error := fun _ => Some e |}.

(** {"success": False, "message": "File not found"} *)
Definition file_not_found : DeleteResponse :=
  {| del_success := false; del_message := Some "File not found" |}.

(** A configured environment in which os.remove is refused. *)
Definition env_remove_refused : Env :=
  with_remove_error (ExternalError "Permission denied")
    (sample_env (KeysObject complete_config) (Ok "a") ([], None)).

(** A chat request about "a.pdf" in session "s1". *)
Definition request_a_pdf : ChatMessageRequest :=
  {| message := "summarize"; session_id := "s1"; filename := Some "a.pdf" |}.

(** A configured environment whose incremental call yields two fragments and
    then raises. *)
Definition env_stream_breaks : Env :=
  sample_env (KeysObject complete_config) (Ok "Hello")
    (["Hel"; "lo"], Some (ExternalError "connection reset")).

(** A chat request without a document, in session "s1". *)
Definition request_plain : ChatMessageRequest :=
  {| message := "and then?"; session_id := "s1"; filename := None |}.

(** A configured environment whose model answers "Hello", in one piece or in
    two fragments. *)
Definition env_ok : Env :=
  sample_env (KeysObject complete_config) (Ok "Hello") (["Hel"; "lo"], None).

(** A chat request naming a document that was never uploaded. *)
Definition request_missing_pdf : ChatMessageRequest :=
  {| message := "summarize"; session_id := "s1"; filename := Some "missing.pdf" |}.

(** ** A deterministic model backend

    For the same client and prompt, a completed fragment sequence
    concatenates to the text the blocking call returns. *)
Definition deterministic_backend (env : Env) : Prop :=
  forall (l : LLM) (prompt : string) (fragments : list string) (a : string),
    llm_stream env l prompt = (fragments, None) ->
    llm_invoke env l prompt = Ok a ->
    String.concat "" fragments = a.

(** ** Incomplete configuration

    keys.txt is missing, is not JSON, is a scalar, or lacks one of the
    required keys by load_config's own membership test. *)
Definition config_incomplete (env : Env) : Prop :=
  match keys_txt env with
  | KeysObject config => exists key, key ∈ required_keys /\ config !! key = None
  | KeysArray items =>
      exists key, key ∈ required_keys /\ key_in key (ConfigArray items) = false
  | KeysString text =>
      exists key, key ∈ required_keys /\ key_in key (ConfigString text) = false
  | KeysAbsent | KeysInvalid _ | KeysScalar _ => True
  end.

(** An environment without keys.txt. *)
Definition env_unconfigured : Env :=
  sample_env KeysAbsent (Ok "Hello") (["Hel"; "lo"], None).

(** An environment whose keys.txt lacks the streaming endpoint. *)
Definition env_no_stream_url : Env :=
  sample_env (KeysObject (delete "AI_Agent_Stream_URL" complete_config))
    (Ok "Hello") (["Hel"; "lo"], None).

(** A stand-in similarity: the longer the chunk, the closer to any query. *)
Definition sample_similarity (query : string) (d : Document) : Z :=
  Z.of_nat (String.length (page_content d)).

(** ** Shutdown *)

(** A path strictly inside TMP_FOLDER. *)
Definition below_tmp_folder (p : string) : bool :=
  String.prefix (TMP_FOLDER +:+ "/") p.

(** cleanup_tmp_folder, the shutdown hook: shutil.rmtree(TMP_FOLDER) when the
    folder exists, which takes the folder and every path below it off the
    disk.  The removal is taken to succeed. *)
Definition cleanup_tmp_folder (st : State) : State :=
  if bool_decide (TMP_FOLDER ∈ disk st) then
    set_disk (filter (fun p => p <> TMP_FOLDER /\ below_tmp_folder p = false)) st
  else st.

(** ** Vocabulary for the properties of the handlers *)

(** The messages of a list of completed turns (question, answer). *)
Definition turn_messages (turns : list (string * string)) : list Message :=
  flat_map (fun t => [HumanMessage (fst t); AIMessage (snd t)]) turns.

(** A path component without a slash. *)
Definition slash_free (s : string) : Prop :=
  "/"%char ∉ String.list_ascii_of_string s.

(** The upload that upload_pdf lets through its two checks. *)
Definition acceptable_upload (file_name : option string) (content : list Z) : Prop :=
  exists name, names_file file_name = Some name
    /\ endswith (lower name) ".pdf" = true
    /\ (Z.of_nat (length content) <= MAX_SIZE)%Z.

(** Every registered upload is stored under TMP_FOLDER, in a file named by
    its slash-free key. *)
Definition uploads_in_tmp_folder (st : State) : Prop :=
  forall f info, uploaded_files st !! f = Some info ->
    slash_free f /\ path info = TMP_FOLDER +:+ "/" +:+ f.

(** Every session holds completed turns only, as many as its counter says. *)
Definition sessions_hold_turns (st : State) : Prop :=
  forall sid s, chat_sessions st !! sid = Some s ->
    exists turns, memory s = turn_messages turns
      /\ message_count s = Z.of_nat (length turns).

(** The messages and the counter of a session id, none and zero for an id
    that has no session. *)
Definition history_of (st : State) (sid : string) : list Message :=
  match chat_sessions st !! sid with Some s => memory s | None => [] end.

Definition count_of (st : State) (sid : string) : Z :=
  match chat_sessions st !! sid with Some s => message_count s | None => 0%Z end.

(** Between [st] and [st'] exactly one turn was recorded, in session [sid]:
    the question and the answer were appended in that order, the counter
    went up by one, an existing session kept its creation time and its model
    client, and nothing else moved. *)
Definition turn_recorded (sid user_message response : string) (st st' : State)
    : Prop :=
  (exists s', chat_sessions st' !! sid = Some s'
     /\ memory s' = history_of st sid ++
                     [HumanMessage user_message; AIMessage response]
     /\ message_count s' = (count_of st sid + 1)%Z
     /\ forall s, chat_sessions st !! sid = Some s ->
           created_at s' = created_at s /\ llm s' = llm s)
  /\ (forall sid', sid' <> sid -> chat_sessions st' !! sid' = chat_sessions st !! sid')
  /\ uploaded_files st' = uploaded_files st
  /\ vector_stores st' = vector_stores st
  /\ disk st' = disk st.

(** Between [st] and [st'] no turn was recorded: the state is the same, or
    differs by a session without history registered under the unseen id
    [sid]. *)
Definition nothing_recorded (sid : string) (st st' : State) : Prop :=
  st' = st \/
  (chat_sessions st !! sid = None /\
   exists s, memory s = [] /\ message_count s = 0%Z /\
             st' = set_chat_sessions (insert sid s) st).

(** The state a successful upload of [content] under [name] leaves: the file
    written, the index built from it and the file's record, all under the
    sanitized name. *)
Definition uploaded (name : string) (content : list Z) (vector_store : FAISS)
    (st : State) : State :=
  {| uploaded_files :=
       <[basename name :=
           {| path := TMP_FOLDER +:+ "/" +:+ basename name;
              file_size := Z.of_nat (length content) |}]> (uploaded_files st);
     vector_stores := <[basename name := vector_store]> (vector_stores st);
     chat_sessions := chat_sessions st;
     disk := disk st ∪ {[TMP_FOLDER +:+ "/" +:+ basename name]} |}.

(** A configured environment in which building the index raises. *)
Definition env_indexing_fails : Env :=
  {| keys_txt := KeysObject complete_config;
     llm_invoke := fun _ _ => Ok "Hello";
     llm_stream := fun _ _ => (["Hel"; "lo"], None);
     get_relevant_documents := fun store k _ => Ok (take k (chunks store));
     qa_chain_invoke := fun _ store k _ => Ok ("Hello", take k (chunks store));
     faiss_from_pdf := fun _ => Raise (ExternalError "cannot open broken document");
     os_open_error := fun _ => None;
     os_write_error := fun _ => None;
     os_remove_error := fun _ => None |}.

(** What the handlers keep true of the document side of the state: the two
    registries have the same keys, every record points into TMP_FOLDER, and
    the folder itself exists. *)
Definition documents_consistent (st : State) : Prop :=
  dom (uploaded_files st) = dom (vector_stores st)
  /\ uploads_in_tmp_folder st
  /\ TMP_FOLDER ∈ disk st.

(** ** What a configuration holds *)

(** What json.load makes of keys.txt, when it is something the membership
    test of load_config accepts. *)
Definition parsed_keys (keys : keys_file) : option config_value :=
  match keys with
  | KeysObject config => Some (ConfigObject config)
  | KeysArray items => Some (ConfigArray items)
  | KeysString text => Some (ConfigString text)
  | KeysAbsent | KeysInvalid _ | KeysScalar _ => None
  end.

(** The name is a key of the dict, an element of the list, or a part of the
    str. *)
Definition holds_key (config : config_value) (key : string) : Prop :=
  match config with
  | ConfigObject c => is_Some (c !! key)
  | ConfigArray items => JStr key ∈ items
  | ConfigString text => exists before after, text = before +:+ key +:+ after
  end.

(** An environment whose keys.txt is the JSON array of the three names. *)
Definition env_keys_array : Env :=
  sample_env (KeysArray [JStr "API_KEY"; JStr "AI_Agent_URL"; JStr "AI_Agent_Stream_URL"])
    (Ok "Hello") (["Hel"; "lo"], None).

(** A configured environment in which the file can be opened but not
    written. *)
Definition env_disk_full : Env :=
  {| keys_txt := KeysObject complete_config;
     llm_invoke := fun _ _ => Ok "Hello";
     llm_stream := fun _ _ => (["Hel"; "lo"], None);
     get_relevant_documents := fun store k _ => Ok (take k (chunks store));
     qa_chain_invoke := fun _ store k _ => Ok ("Hello", take k (chunks store));
     faiss_from_pdf := fun _ => Ok {| chunks := [ {| page_content := "chunk" |} ] |};
     os_open_error := fun _ => None;
     os_write_error := fun _ => Some (ExternalError "No space left on device");
     os_remove_error := fun _ => None |}.

(** ** Properties *)

(** *** Prompt assembly *)

Lemma context_block_empty_iff (context : string) :
  context_block context = "" <-> context = "".
Proof.
  split; [| intros ->; reflexivity].
  destruct context as [|c r]; [reflexivity |].
  intros H. cbv in H. discriminate H.
Qed.

Lemma system_instruction_refusal :
  exists before after : string,
    system_instruction = before +:+ refusal_sentence +:+ after.
Proof.
  exists (String.substring 0 293 system_instruction),
         (String.substring 358 3 system_instruction).
  vm_compute. reflexivity.
Qed.

(** C4: the assembled prompt is, in this order, the system instruction
    (which holds the fixed refusal sentence), the document context block, and
    the rendered history followed by the new user turn.  The context block is
    the heading "Document Context:", the context and a blank line, and is
    there exactly when the context is not empty.  The rendered history is
    empty for an empty history and otherwise the heading "Previous
    conversation:" followed by the last ten messages, oldest first, one per
    line, each as "User: " or "Assistant: " and its content.  The new user
    turn is "User: ", the message, a blank line and "Assistant:". *)
Theorem build_strict_prompt_structure
    (context : string) (history_messages : list Message) (user_message : string) :
  build_strict_prompt context history_messages user_message =
    system_instruction +:+ context_block context +:+
    conversation_block history_messages user_message
  /\ conversation_block history_messages user_message =
       rendered_history history_messages +:+ String "010"%char "" +:+
       String "010"%char "" +:+
       "User: " +:+ user_message +:+ String "010"%char "" +:+ String "010"%char "" +:+
       "Assistant:"
  /\ (history_messages = [] -> rendered_history history_messages = "")
  /\ (history_messages <> [] ->
      rendered_history history_messages =
        String "010"%char "" +:+ String "010"%char "" +:+ "Previous conversation:" +:+
        String "010"%char "" +:+
        String.concat (String "010"%char "")
          (map (fun m => match m with
                         | HumanMessage said => "User: " +:+ said
                         | AIMessage said => "Assistant: " +:+ said
                         end)
               (drop (length history_messages - 10) history_messages)))
  /\ (context_block context = "" <-> context = "")
  /\ (context <> "" ->
      context_block context =
        "Document Context:" +:+ String "010"%char "" +:+ context +:+
        String "010"%char "" +:+ String "010"%char "")
  /\ exists before after : string,
       system_instruction = before +:+ refusal_sentence +:+ after.
Proof.
  split; [| split; [reflexivity | split; [by intros -> | split]]].
  - assert (Hh : history_text history_messages = rendered_history history_messages).
    { destruct history_messages as [|m h]; [reflexivity |].
      assert (Hm : forall l, map render_message l = map rendered_line l)
        by (intros l; apply map_ext; by intros []).
      unfold history_text, rendered_history, last_n. by rewrite Hm. }
    unfold build_strict_prompt, conversation_block, new_user_turn.
    rewrite Hh. destruct context as [|c r]; reflexivity.
  - destruct history_messages as [|m h]; [done |]. reflexivity.
  - split; [apply context_block_empty_iff | split].
    + destruct context; [congruence | reflexivity].
    + apply system_instruction_refusal.
Qed.

Lemma build_strict_prompt_structure_witness :
  "page one" <> ""
  /\ [HumanMessage "hello"; AIMessage "hi there"] <> []
  /\ context_block "page one" =
       "Document Context:" +:+ line_feed +:+ "page one" +:+ line_feed +:+ line_feed
  /\ rendered_history [HumanMessage "hello"; AIMessage "hi there"] =
       line_feed +:+ line_feed +:+ "Previous conversation:" +:+ line_feed +:+
       "User: hello" +:+ line_feed +:+ "Assistant: hi there"
  /\ build_strict_prompt "page one" [HumanMessage "hello"; AIMessage "hi there"] "more" =
       system_instruction +:+ context_block "page one" +:+
       conversation_block [HumanMessage "hello"; AIMessage "hi there"] "more".
Proof.
  assert (H : "page one" <> "") by discriminate.
  assert (Hh : [HumanMessage "hello"; AIMessage "hi there"] <> []) by discriminate.
  destruct (build_strict_prompt_structure
              "page one" [HumanMessage "hello"; AIMessage "hi there"] "more")
    as (Hp & _ & _ & Hr & _ & Hc & _).
  split; [exact H | split; [exact Hh | split; [exact (Hc H) | split; [| exact Hp]]]].
  exact (Hr Hh).
Defined.

(** *** The history window *)

Lemma last_n_length {A} (n : nat) (l : list A) :
  length (last_n n l) = Nat.min n (length l).
Proof. unfold last_n. rewrite length_drop. lia. Qed.

Lemma last_n_idem {A} (n : nat) (l : list A) :
  last_n n (last_n n l) = last_n n l.
Proof.
  unfold last_n at 1. rewrite last_n_length.
  replace (Nat.min n (length l) - n) with 0 by lia. reflexivity.
Qed.

Lemma last_n_nil_iff {A} (n : nat) (l : list A) :
  0 < n -> last_n n l = [] <-> l = [].
Proof.
  intros Hn. split; [| intros ->; reflexivity].
  intros H. apply (f_equal length) in H. rewrite last_n_length in H.
  destruct l; [reflexivity | simpl in H; lia].
Qed.

Lemma last_n_suffix {A} (n : nat) (l : list A) :
  l = take (length l - n) l ++ last_n n l.
Proof. unfold last_n. by rewrite take_drop. Qed.

Lemma history_text_window (history_messages : list Message) :
  history_text history_messages = history_text (last_n 10 history_messages).
Proof.
  destruct history_messages as [|m h]; [reflexivity |].
  destruct (last_n 10 (m :: h)) as [|m' h'] eqn:E.
  - apply last_n_nil_iff in E; [discriminate | lia].
  - unfold history_text. rewrite <- E, last_n_idem. reflexivity.
Qed.

Lemma get_chat_history_lookup (sid : string) (st : State) (s : Session) (i : nat) :
  chat_sessions st !! sid = Some s ->
  get_chat_history sid st !! i = history_entry (created_at s) <$> (memory s !! i).
Proof.
  intros H. unfold get_chat_history. rewrite H. apply list_lookup_fmap.
Qed.

(** C6: whatever the length n of a session's history, the prompt is built
    from its last 10 messages only (at most 10 are rendered, and they are a
    suffix of the history), while get_chat_history returns all n messages, in
    insertion order. *)
Theorem prompt_window_and_full_history
    (st : State) (sid : string) (s : Session) (context user_message : string) :
  chat_sessions st !! sid = Some s ->
  build_strict_prompt context (memory s) user_message =
    build_strict_prompt context (last_n 10 (memory s)) user_message
  /\ length (last_n 10 (memory s)) <= 10
  /\ (exists older, memory s = older ++ last_n 10 (memory s))
  /\ length (get_chat_history sid st) = length (memory s)
  /\ (forall i m, memory s !! i = Some m ->
        get_chat_history sid st !! i =
          Some {| role := if is_human m then "user" else "assistant";
                  entry_content := content m;
                  timestamp := created_at s |}).
Proof.
  intros Hs. repeat split.
  - unfold build_strict_prompt. rewrite <- history_text_window. reflexivity.
  - rewrite last_n_length. lia.
  - eexists. apply last_n_suffix.
  - unfold get_chat_history. rewrite Hs. apply length_map.
  - intros i m Hm. rewrite (get_chat_history_lookup _ _ _ _ Hs), Hm. reflexivity.
Qed.

Lemma prompt_window_and_full_history_witness :
  chat_sessions state_with_long_session !! "s2" = Some long_session
  /\ build_strict_prompt "ctx" (memory long_session) "q7" =
       build_strict_prompt "ctx" (drop 2 (memory long_session)) "q7"
  /\ length (get_chat_history "s2" state_with_long_session) = 12.
Proof.
  assert (H : chat_sessions state_with_long_session !! "s2" = Some long_session)
    by reflexivity.
  destruct (prompt_window_and_full_history
              state_with_long_session "s2" long_session "ctx" "q7" H)
    as (Hp & _ & _ & Hl & _).
  split; [exact H | split; [exact Hp | exact Hl]].
Defined.

(** *** The session store *)

Lemma get_or_create_session_existing
    (env : Env) (now : datetime) (sid : string) (st : State) (s : Session) :
  chat_sessions st !! sid = Some s ->
  get_or_create_session env now sid st = (Ok s, st).
Proof. intros H. unfold get_or_create_session. by rewrite H. Qed.

Lemma get_or_create_session_fresh
    (env : Env) (now : datetime) (sid : string) (st : State)
    (config : gmap string string) :
  chat_sessions st !! sid = None ->
  load_config env = Ok (ConfigObject config) ->
  get_or_create_session env now sid st =
    (Ok (new_session config now),
     set_chat_sessions (insert sid (new_session config now)) st).
Proof. intros H Hc. unfold get_or_create_session. by rewrite H, Hc. Qed.

(** For an id without a session, the call raises and leaves the state, or
    registers a session without history around a new client. *)
Lemma get_or_create_session_outcome
    (env : Env) (now : datetime) (sid : string) (st : State) :
  chat_sessions st !! sid = None ->
  (exists e, get_or_create_session env now sid st = (Raise e, st))
  \/ (exists client,
        get_or_create_session env now sid st =
          (Ok (session_with client now),
           set_chat_sessions (insert sid (session_with client now)) st)).
Proof.
  intros H. unfold get_or_create_session. rewrite H.
  destruct (load_config env) as [config|e]; [| left; by exists e].
  destruct (make_llm config) as [client|e]; [right; by exists client | left; by exists e].
Qed.




(** *** Deleting a document *)

Lemma delete_file_unknown (env : Env) (f : string) (st : State) :
  uploaded_files st !! f = None ->
  delete_file env f st =
    (file_not_found, set_vector_stores (delete f) (set_uploaded_files (delete f) st)).
Proof. intros H. unfold delete_file. by rewrite H. Qed.

Lemma delete_file_forgets (env : Env) (f : string) (st : State) :
  uploaded_files (snd (delete_file env f st)) !! f = None
  /\ vector_stores (snd (delete_file env f st)) !! f = None.
Proof.
  unfold delete_file.
  destruct (uploaded_files st !! f) as [info|]; [| simpl; split; apply lookup_delete_eq].
  case_bool_decide; [destruct (os_remove_error env (path info)) |];
    simpl; split; apply lookup_delete_eq.
Qed.

Lemma delete_absent_state (f : string) (st : State) :
  uploaded_files st !! f = None ->
  vector_stores st !! f = None ->
  set_vector_stores (delete f) (set_uploaded_files (delete f) st) = st.
Proof.
  intros Hu Hv. destruct st as [u v c d]; simpl in *.
  unfold set_vector_stores, set_uploaded_files; simpl.
  by rewrite (delete_id _ _ Hu), (delete_id _ _ Hv).
Qed.

(** C9: deleting a document that is not live (no entry in the document map
    nor in the index map) returns the failure result, raises nothing, and
    leaves the document map, the index map, the sessions and the disk as they
    were; so does the second delete of any id, whatever the first one did. *)
Theorem delete_file_nonexistent (env : Env) (f : string) (st : State) :
  (uploaded_files st !! f = None -> vector_stores st !! f = None ->
     delete_file env f st = (file_not_found, st))
  /\ delete_file env f (snd (delete_file env f st)) =
       (file_not_found, snd (delete_file env f st)).
Proof.
  assert (Hgen : forall s, uploaded_files s !! f = None -> vector_stores s !! f = None ->
                   delete_file env f s = (file_not_found, s)).
  { intros s Hu Hv. rewrite (delete_file_unknown _ _ _ Hu).
    by rewrite (delete_absent_state _ _ Hu Hv). }
  split; [apply Hgen |].
  destruct (delete_file_forgets env f st) as [Hu Hv]. by apply Hgen.
Qed.

Lemma delete_file_nonexistent_witness :
  uploaded_files state_with_document !! "b.pdf" = None
  /\ vector_stores state_with_document !! "b.pdf" = None
  /\ delete_file (sample_env KeysAbsent (Ok "a") ([], None)) "b.pdf" state_with_document =
       (file_not_found, state_with_document).
Proof.
  assert (Hu : uploaded_files state_with_document !! "b.pdf" = None) by reflexivity.
  assert (Hv : vector_stores state_with_document !! "b.pdf" = None) by reflexivity.
  split; [exact Hu | split; [exact Hv |]].
  exact (proj1 (delete_file_nonexistent _ "b.pdf" state_with_document) Hu Hv).
Defined.

Lemma chat_message_unknown_document
    (env : Env) (now : datetime) (request : ChatMessageRequest) (st : State)
    (f : string) :
  names_file (filename request) = Some f ->
  vector_stores st !! f = None ->
  chat_message env now request st =
    (HTTPException 400 "PDF not found. Upload before chatting.", st).
Proof. intros Hf Hv. unfold chat_message. by rewrite Hf, Hv. Qed.

(** C10: once delete_file has returned for a filename, with either value
    of the success flag, vector_stores has no entry under that filename, and
    a chat request naming it is refused with the not-found failure. *)
Theorem delete_file_removes_index (env : Env) (f : string) (st : State) :
  vector_stores (snd (delete_file env f st)) !! f = None
  /\ forall env' now request,
       names_file (filename request) = Some f ->
       chat_message env' now request (snd (delete_file env f st)) =
         (HTTPException 400 "PDF not found. Upload before chatting.",
          snd (delete_file env f st)).
Proof.
  destruct (delete_file_forgets env f st) as [_ Hv].
  split; [exact Hv |].
  intros env' now request Hf. by apply chat_message_unknown_document with f.
Qed.

Lemma delete_file_removes_index_witness :
  is_Some (vector_stores state_with_document !! "a.pdf")
  /\ del_success (fst (delete_file env_remove_refused "a.pdf" state_with_document)) = false
  /\ names_file (filename request_a_pdf) = Some "a.pdf"
  /\ fst (chat_message env_remove_refused "2024-02-02T00:00:00" request_a_pdf
            (snd (delete_file env_remove_refused "a.pdf" state_with_document))) =
       HTTPException 400 "PDF not found. Upload before chatting.".
Proof.
  assert (Hf : names_file (filename request_a_pdf) = Some "a.pdf") by reflexivity.
  split; [by eexists | split; [reflexivity | split; [exact Hf |]]].
  rewrite (proj2 (delete_file_removes_index env_remove_refused "a.pdf"
                    state_with_document)
             env_remove_refused "2024-02-02T00:00:00" request_a_pdf Hf).
  reflexivity.
Defined.

(** *** The steps before the model call *)

Lemma retrieve_context_state (env : Env) (request : ChatMessageRequest) (st : State) :
  snd (retrieve_context env request st) = st.
Proof.
  unfold retrieve_context.
  destruct (names_file (filename request)) as [f|]; [| reflexivity].
  unfold bind, get_state; simpl.
  destruct (vector_stores st !! f) as [store|]; [| reflexivity].
  unfold lift, ret.
  destruct (get_relevant_documents env store 3 (message request)); reflexivity.
Qed.

Lemma stream_prelude_inv
    (env : Env) (now : datetime) (request : ChatMessageRequest) (st st1 : State)
    (session : Session) (sources : list string) (prompt : string) :
  stream_prelude env now request st = (Ok (session, sources, prompt), st1) ->
  get_or_create_session env now (session_id request) st = (Ok session, st1)
  /\ exists context,
       retrieve_context env request st1 = (Ok (context, sources), st1)
       /\ prompt = build_strict_prompt context (memory session) (message request).
Proof.
  unfold stream_prelude, bind. intros H.
  destruct (get_or_create_session env now (session_id request) st) as [[s|e] st0];
    [| discriminate].
  pose proof (retrieve_context_state env request st0) as Hst.
  destruct (retrieve_context env request st0) as [[[context srcs]|e] st0'] eqn:Hr;
    [| discriminate].
  simpl in Hst. subst st0'. unfold ret in H. injection H as -> -> <- <-.
  split; [reflexivity |]. exists context. split; [exact Hr | reflexivity].
Qed.

(** What get_or_create_session can do to the state: nothing, or register a
    session with no history under an id that had none. *)
Lemma get_or_create_session_state
    (env : Env) (now : datetime) (sid : string) (st st1 : State) (r : result Session) :
  get_or_create_session env now sid st = (r, st1) ->
  (is_Some (chat_sessions st !! sid) -> st1 = st)
  /\ (chat_sessions st !! sid = None ->
      st1 = st \/
      exists client, r = Ok (session_with client now) /\
        st1 = set_chat_sessions (insert sid (session_with client now)) st).
Proof.
  intros H.
  destruct (chat_sessions st !! sid) as [s|] eqn:Hs.
  - rewrite (get_or_create_session_existing _ _ _ _ _ Hs) in H.
    injection H as _ <-. split; [reflexivity | discriminate].
  - split; [intros [? ?]; discriminate | intros _].
    destruct (get_or_create_session_outcome env now sid st Hs)
      as [[e He] | [client Hc]]; rewrite He in H || rewrite Hc in H;
      injection H as <- <-.
    + by left.
    + right. by exists client.
Qed.

Lemma get_chat_history_after_get_or_create
    (env : Env) (now : datetime) (sid : string) (st st1 : State) (r : result Session) :
  get_or_create_session env now sid st = (r, st1) ->
  forall sid', get_chat_history sid' st1 = get_chat_history sid' st.
Proof.
  intros H sid'. destruct (get_or_create_session_state _ _ _ _ _ _ H) as [Hex Hnew].
  destruct (chat_sessions st !! sid) as [s|] eqn:Hs.
  - rewrite Hex; [reflexivity | by eexists].
  - destruct (Hnew eq_refl) as [-> | (client & _ & ->)]; [reflexivity |].
    unfold get_chat_history; simpl.
    destruct (decide (sid = sid')) as [<- | Hne].
    + by rewrite lookup_insert_eq, Hs.
    + by rewrite lookup_insert_ne.
Qed.

(** *** Streaming: the model fails part of the way *)

(** C1: when the incremental model call raises after some fragments
    (possibly none), generate_stream yields those fragments, then the error
    event (content "Error: " followed by the text of the exception, success
    false), then the end marker.  No turn is recorded: an existing session,
    and the whole state with it, is exactly as before; a session id seen for
    the first time has by then been registered with an empty history and a
    zero counter, and every history reads as it did before the request. *)
Theorem generate_stream_model_failure
    (env : Env) (now : datetime) (request : ChatMessageRequest) (st st1 : State)
    (session : Session) (sources : list string) (prompt : string)
    (fragments : list string) (e : exn) :
  stream_prelude env now request st = (Ok (session, sources, prompt), st1) ->
  llm_stream env (llm session) prompt = (fragments, Some e) ->
  generate_stream env now request st =
    (map chunk_event fragments ++
       [SseData (JObject [("content", JStr ("Error: " +:+ str_exn e));
                          ("session_id", JStr (session_id request));
                          ("success", JBool false)]);
        SseDone],
     st1)
  /\ (forall sid, get_chat_history sid st1 = get_chat_history sid st)
  /\ (is_Some (chat_sessions st !! session_id request) -> st1 = st)
  /\ (chat_sessions st !! session_id request = None ->
      memory session = [] /\ message_count session = 0%Z /\
      st1 = set_chat_sessions (insert (session_id request) session) st).
Proof.
  intros Hpre Hllm.
  split.
  { unfold generate_stream. rewrite Hpre, Hllm. reflexivity. }
  apply stream_prelude_inv in Hpre as (Hget & _).
  split; [exact (get_chat_history_after_get_or_create _ _ _ _ _ _ Hget) |].
  destruct (get_or_create_session_state _ _ _ _ _ _ Hget) as [Hex Hnew].
  split; [exact Hex |].
  intros Hs.
  destruct (get_or_create_session_outcome env now (session_id request) st Hs)
    as [[e0 He] | [client Hc]]; rewrite He in Hget || rewrite Hc in Hget;
    [discriminate |].
  injection Hget as <- <-. auto.
Qed.

Lemma generate_stream_model_failure_witness :
  stream_prelude env_stream_breaks "2024-02-02T00:00:00" request_plain state_with_session =
    (Ok (sample_session, [],
         build_strict_prompt "" (memory sample_session) "and then?"),
     state_with_session)
  /\ generate_stream env_stream_breaks "2024-02-02T00:00:00" request_plain
       state_with_session =
       ([chunk_event "Hel"; chunk_event "lo";
         error_event (ExternalError "connection reset") "s1"; SseDone],
        state_with_session).
Proof.
  assert (Hpre : stream_prelude env_stream_breaks "2024-02-02T00:00:00" request_plain
                   state_with_session =
                 (Ok (sample_session, [],
                      build_strict_prompt "" (memory sample_session) "and then?"),
                  state_with_session)) by reflexivity.
  split; [exact Hpre |].
  exact (proj1 (generate_stream_model_failure
                  env_stream_breaks "2024-02-02T00:00:00" request_plain
                  state_with_session state_with_session sample_session []
                  (build_strict_prompt "" (memory sample_session) "and then?")
                  ["Hel"; "lo"] (ExternalError "connection reset")
                  Hpre eq_refl)).
Defined.

(** *** A request that names an unknown document *)

Lemma retrieve_context_unknown_document
    (env : Env) (request : ChatMessageRequest) (st : State) (f : string) :
  names_file (filename request) = Some f ->
  vector_stores st !! f = None ->
  retrieve_context env request st = (Raise (KeyError f), st).
Proof.
  intros Hf Hv. unfold retrieve_context. rewrite Hf.
  unfold bind, get_state. by rewrite Hv.
Qed.

(** In streaming mode nothing checks the filename before the try block:
    the session is fetched or created first, and the missing store is only
    met as a KeyError, reported in-band. *)
Lemma generate_stream_unknown_document
    (env : Env) (now : datetime) (request : ChatMessageRequest) (st : State)
    (f : string) (config : gmap string string) :
  names_file (filename request) = Some f ->
  vector_stores st !! f = None ->
  chat_sessions st !! session_id request = None ->
  load_config env = Ok (ConfigObject config) ->
  generate_stream env now request st =
    ([error_event (KeyError f) (session_id request); SseDone],
     set_chat_sessions (insert (session_id request) (new_session config now)) st).
Proof.
  intros Hf Hv Hs Hc. unfold generate_stream, stream_prelude, bind.
  rewrite (get_or_create_session_fresh _ _ _ _ _ Hs Hc).
  rewrite (retrieve_context_unknown_document env request _ f Hf); [reflexivity |].
  exact Hv.
Qed.

(** C2, at a request for "missing.pdf" on a server that holds nothing: batch
    mode refuses with the 400 not-found failure and leaves the state alone,
    while streaming mode registers session "s1" and then reports the KeyError
    as an in-band error event. *)
Theorem unknown_document_batch_versus_stream :
  chat_message env_ok "2024-02-02T00:00:00" request_missing_pdf empty_state =
    (HTTPException 400 "PDF not found. Upload before chatting.", empty_state)
  /\ generate_stream env_ok "2024-02-02T00:00:00" request_missing_pdf empty_state =
       ([SseData (JObject [("content", JStr "Error: 'missing.pdf'");
                           ("session_id", JStr "s1");
                           ("success", JBool false)]);
         SseDone],
        set_chat_sessions
          (insert "s1" (new_session complete_config "2024-02-02T00:00:00"))
          empty_state)
  /\ chat_sessions empty_state !! "s1" = None
  /\ chat_sessions
       (snd (generate_stream env_ok "2024-02-02T00:00:00" request_missing_pdf
               empty_state)) !! "s1" =
       Some (new_session complete_config "2024-02-02T00:00:00").
Proof.
  assert (Hs : generate_stream env_ok "2024-02-02T00:00:00" request_missing_pdf
                 empty_state =
               ([error_event (KeyError "missing.pdf") "s1"; SseDone],
                set_chat_sessions
                  (insert "s1" (new_session complete_config "2024-02-02T00:00:00"))
                  empty_state)).
  { apply (generate_stream_unknown_document env_ok _ request_missing_pdf
             empty_state "missing.pdf" complete_config); reflexivity. }
  split; [| split; [| split]].
  - apply chat_message_unknown_document with "missing.pdf"; reflexivity.
  - exact Hs.
  - reflexivity.
  - rewrite Hs. simpl. apply lookup_insert_eq.
Qed.

(** *** Batch and streaming mode on the same request *)

Lemma chat_message_body_prelude
    (env : Env) (now : datetime) (request : ChatMessageRequest) (st : State) :
  chat_message_body env now request st =
    match stream_prelude env now request st with
    | (Raise e, st1) => (Raise e, st1)
    | (Ok (session, sources, prompt), st1) =>
        match llm_invoke env (llm session) prompt with
        | Raise e => (Raise e, st1)
        | Ok response =>
            (Ok {| resp_content := response;
                   resp_sources := Some sources;
                   resp_session_id := session_id request;
                   resp_success := true |},
             snd (commit_turn (session_id request) (message request) response st1))
        end
    end.
Proof.
  unfold chat_message_body, stream_prelude, bind.
  destruct (get_or_create_session env now (session_id request) st) as [[s|e] st0];
    [| reflexivity].
  destruct (retrieve_context env request st0) as [[[context srcs]|e] st0'];
    [| reflexivity].
  unfold ret, lift.
  destruct (llm_invoke env (llm s) _); reflexivity.
Qed.

Lemma get_or_create_session_vector_stores
    (env : Env) (now : datetime) (sid : string) (st : State) :
  vector_stores (snd (get_or_create_session env now sid st)) = vector_stores st.
Proof.
  unfold get_or_create_session.
  destruct (chat_sessions st !! sid); [reflexivity |].
  destruct (load_config env) as [config|e]; [destruct (make_llm config) |];
    reflexivity.
Qed.

(** A request whose pre-model steps succeed passes the filename check of
    chat_message. *)
Lemma chat_message_after_prelude
    (env : Env) (now : datetime) (request : ChatMessageRequest) (st st1 : State)
    (session : Session) (sources : list string) (prompt : string) :
  stream_prelude env now request st = (Ok (session, sources, prompt), st1) ->
  chat_message env now request st =
    match chat_message_body env now request st with
    | (Ok r, st') => (Http200 r, st')
    | (Raise e, st') => (HTTPException 500 ("Chat error: " +:+ str_exn e), st')
    end.
Proof.
  intros Hpre. unfold chat_message.
  destruct (names_file (filename request)) as [f|] eqn:Hf; [| reflexivity].
  destruct (vector_stores st !! f) as [store|] eqn:Hv; [reflexivity |].
  exfalso.
  apply stream_prelude_inv in Hpre as (Hget & context & Hr & _).
  pose proof (get_or_create_session_vector_stores env now (session_id request) st) as Hvs.
  rewrite Hget in Hvs; simpl in Hvs.
  rewrite (retrieve_context_unknown_document env request st1 f Hf) in Hr;
    [discriminate | by rewrite Hvs].
Qed.

(** C5: with a deterministic backend, when the fragment sequence completes
    and the blocking call answers the same prompt, the stream is one
    {"content": fragment} event per fragment, in order, then the terminal
    event {"content": full answer, "sources": ..., "session_id": ...,
    "success": true}, then the end marker.  The full answer in the terminal
    event is the concatenation of the fragments, and it is the answer the
    batch mode returns; both modes also return the same sources and leave the
    same state. *)
Theorem stream_answer_equals_batch_answer
    (env : Env) (now : datetime) (request : ChatMessageRequest) (st st1 : State)
    (session : Session) (sources : list string) (prompt : string)
    (fragments : list string) (a : string) :
  deterministic_backend env ->
  stream_prelude env now request st = (Ok (session, sources, prompt), st1) ->
  llm_stream env (llm session) prompt = (fragments, None) ->
  llm_invoke env (llm session) prompt = Ok a ->
  exists st2,
    generate_stream env now request st =
      (map (fun fragment => SseData (JObject [("content", JStr fragment)])) fragments ++
         [SseData (JObject [("content", JStr (String.concat "" fragments));
                            ("sources", JList (map JStr sources));
                            ("session_id", JStr (session_id request));
                            ("success", JBool true)]);
          SseDone],
       st2)
    /\ chat_message env now request st =
         (Http200 {| resp_content := a;
                     resp_sources := Some sources;
                     resp_session_id := session_id request;
                     resp_success := true |}, st2)
    /\ a = String.concat "" fragments.
Proof.
  intros Hdet Hpre Hstream Hinvoke.
  pose proof (Hdet _ _ _ _ Hstream Hinvoke) as Ha.
  exists (snd (commit_turn (session_id request) (message request) a st1)).
  split; [| split; [| by symmetry]].
  - unfold generate_stream. rewrite Hpre, Hstream, Ha. reflexivity.
  - rewrite (chat_message_after_prelude _ _ _ _ _ _ _ _ Hpre).
    rewrite chat_message_body_prelude, Hpre, Hinvoke. reflexivity.
Qed.

Lemma env_ok_deterministic : deterministic_backend env_ok.
Proof. intros l prompt fragments a Hs Hi. simpl in Hs, Hi. by simplify_eq. Qed.

Lemma stream_answer_equals_batch_answer_witness :
  deterministic_backend env_ok
  /\ exists st2,
       generate_stream env_ok "2024-02-02T00:00:00" request_plain state_with_session =
         ([SseData (JObject [("content", JStr "Hel")]);
           SseData (JObject [("content", JStr "lo")]);
           SseData (JObject [("content", JStr "Hello");
                             ("sources", JList []);
                             ("session_id", JStr "s1");
                             ("success", JBool true)]);
           SseDone], st2)
       /\ chat_message env_ok "2024-02-02T00:00:00" request_plain state_with_session =
            (Http200 {| resp_content := "Hello"; resp_sources := Some [];
                        resp_session_id := "s1"; resp_success := true |}, st2)
       /\ "Hello" = String.concat "" ["Hel"; "lo"].
Proof.
  split; [exact env_ok_deterministic |].
  exact (stream_answer_equals_batch_answer
           env_ok "2024-02-02T00:00:00" request_plain
           state_with_session state_with_session sample_session []
           (build_strict_prompt "" (memory sample_session) "and then?")
           ["Hel"; "lo"] "Hello"
           env_ok_deterministic eq_refl eq_refl eq_refl).
Defined.

(** *** Configuration *)


Lemma check_required_keys_ok (config checked : config_value) :
  check_required_keys config = Ok checked ->
  checked = config /\ forall key, key ∈ required_keys -> key_in key config = true.
Proof.
  unfold check_required_keys.
  destruct (missing_keys config) as [|k rest] eqn:Hm; [| discriminate].
  intros [= <-]. split; [reflexivity |].
  intros key Hin. destruct (key_in key config) eqn:Hk; [reflexivity |].
  exfalso. unfold missing_keys in Hm.
  by apply (filter_nil_not_elem_of _ _ key Hm Hk).
Qed.


Lemma load_config_complete (env : Env) (config : gmap string string) :
  load_config env = Ok (ConfigObject config) ->
  keys_txt env = KeysObject config
  /\ forall key, key ∈ required_keys -> is_Some (config !! key).
Proof.
  unfold load_config.
  destruct (keys_txt env) as [| msg | c | items | text | msg]; try discriminate;
    intros [Heq Hall]%check_required_keys_ok; try discriminate.
  injection Heq as <-. split; [reflexivity |].
  intros key Hin. specialize (Hall key Hin). simpl in Hall.
  by apply bool_decide_eq_true_1 in Hall.
Qed.

(** *** Which handlers touch chat_sessions *)

Lemma delete_file_chat_sessions (env : Env) (f : string) (st : State) :
  chat_sessions (snd (delete_file env f st)) = chat_sessions st.
Proof.
  unfold delete_file.
  destruct (uploaded_files st !! f) as [info|]; [| reflexivity].
  case_bool_decide; [destruct (os_remove_error env (path info)) |]; reflexivity.
Qed.

Lemma upload_pdf_chat_sessions
    (env : Env) (file_name : option string) (content : list Z) (st : State) :
  chat_sessions (snd (upload_pdf env file_name content st)) = chat_sessions st.
Proof.
  unfold upload_pdf.
  destruct (names_file file_name) as [name|]; [| reflexivity].
  destruct (negb _); [reflexivity |].
  destruct (_ <? _)%Z; [reflexivity |].
  unfold upload_pdf_body, bind, lift, ret.
  destruct (os_open_error env _); [reflexivity |].
  destruct (os_write_error env _); [reflexivity |].
  destruct (faiss_from_pdf env content); reflexivity.
Qed.

Lemma ask_question_state (env : Env) (request : QuestionRequest) (st : State) :
  snd (ask_question env request st) = st.
Proof.
  unfold ask_question.
  destruct (vector_stores st !! q_filename request) as [store|] eqn:Hv; [| reflexivity].
  unfold ask_question_body, bind, lift, get_state, ret.
  destruct (load_config env) as [config|e]; [| reflexivity].
  destruct (make_llm config) as [client|e]; [| reflexivity].
  rewrite Hv.
  destruct (qa_chain_invoke env _ store 5 (question request)) as [[ans docs]|];
    reflexivity.
Qed.









(** A session created while keys.txt was complete outlives the file: an
    existing session is served without reading the configuration again. *)
Lemma existing_session_needs_no_configuration :
  config_incomplete env_unconfigured
  /\ fst (chat_message env_unconfigured "2024-02-02T00:00:00" request_plain
            state_with_session) =
       Http200 {| resp_content := "Hello"; resp_sources := Some [];
                  resp_session_id := "s1"; resp_success := true |}.
Proof. split; [exact I | reflexivity]. Qed.

(** *** Top-K retrieval *)

Section RankingFacts.

Variable similarity : string -> Document -> Z.

Lemma insert_ranked_perm (query : string) (c : Document) (ranked : list Document) :
  Retriever.insert_ranked similarity query c ranked ≡ₚ c :: ranked.
Proof.
  induction ranked as [|d rest IH]; simpl; [reflexivity |].
  destruct (_ <? _)%Z; [| reflexivity].
  rewrite IH. apply Permutation_swap.
Qed.

Lemma rank_perm (query : string) (index : list Document) :
  Retriever.rank similarity query index ≡ₚ index.
Proof.
  unfold Retriever.rank.
  induction index as [|c index IH]; simpl; [reflexivity |].
  by rewrite insert_ranked_perm, IH.
Qed.

Lemma rank_length (query : string) (index : list Document) :
  length (Retriever.rank similarity query index) = length index.
Proof. by rewrite rank_perm. Qed.

Lemma descending_cons (query : string) (c : Document) (l : list Document) :
  (forall d, d ∈ l -> (similarity query d <= similarity query c)%Z) ->
  Retriever.descending similarity query l ->
  Retriever.descending similarity query (c :: l).
Proof.
  intros Hc Hl i j a b Hij Ha Hb.
  destruct j as [|j]; [lia |]. simpl in Hb.
  destruct i as [|i]; simpl in Ha.
  - injection Ha as <-. apply Hc. by eapply list_elem_of_lookup_2.
  - apply (Hl i j); [lia | done | done].
Qed.

Lemma descending_tail (query : string) (c : Document) (l : list Document) :
  Retriever.descending similarity query (c :: l) ->
  Retriever.descending similarity query l /\
  forall d, d ∈ l -> (similarity query d <= similarity query c)%Z.
Proof.
  intros H. split.
  - intros i j a b Hij Ha Hb. apply (H (S i) (S j)); [lia | done | done].
  - intros d [j Hj]%list_elem_of_lookup_1. apply (H 0 (S j)); [lia | done | done].
Qed.

Lemma insert_ranked_descending (query : string) (c : Document) (l : list Document) :
  Retriever.descending similarity query l ->
  Retriever.descending similarity query (Retriever.insert_ranked similarity query c l).
Proof.
  induction l as [|d rest IH]; intros Hl; simpl.
  - intros i j a b Hij Ha Hb. destruct j; [lia |]. destruct i; done.
  - destruct (descending_tail _ _ _ Hl) as [Hrest Hd].
    destruct (similarity query c <? similarity query d)%Z eqn:E.
    + apply Z.ltb_lt in E. apply descending_cons; [| by apply IH].
      intros x Hx. rewrite insert_ranked_perm in Hx.
      apply elem_of_cons in Hx as [-> | Hx]; [lia | by apply Hd].
    + apply Z.ltb_ge in E. apply descending_cons; [| exact Hl].
      intros x Hx. apply elem_of_cons in Hx as [-> | Hx]; [lia |].
      specialize (Hd x Hx). lia.
Qed.

Lemma rank_descending (query : string) (index : list Document) :
  Retriever.descending similarity query (Retriever.rank similarity query index).
Proof.
  unfold Retriever.rank. induction index as [|c index IH]; simpl.
  - intros i j a b _ Ha. done.
  - by apply insert_ranked_descending.
Qed.

End RankingFacts.

(** C3, as amended: for a live document id, topK returns at most k chunk
    texts, never fails, and returns exactly min(k, index size) of them, the
    most similar first; an index with fewer than k chunks is therefore
    returned whole, not as an empty list. *)
Theorem topK_size
    (similarity : string -> Document -> Z) (registry : gmap string FAISS)
    (id queryText : string) (k : nat) (index : FAISS) :
  registry !! id = Some index ->
  exists texts,
    Retriever.topK similarity registry id queryText k = Retriever.Retrieved texts
    /\ length texts <= k
    /\ length texts = Nat.min k (length (chunks index))
    /\ texts = map page_content
                (take k (Retriever.rank similarity queryText (chunks index)))
    /\ Retriever.descending similarity queryText
         (Retriever.rank similarity queryText (chunks index))
    /\ (length (chunks index) <= k ->
        texts ≡ₚ map page_content (chunks index)).
Proof.
  intros Hid. unfold Retriever.topK. rewrite Hid. eexists. split; [reflexivity |].
  assert (Hlen : length (map page_content
                   (take k (Retriever.rank similarity queryText (chunks index)))) =
                 Nat.min k (length (chunks index))).
  { by rewrite length_map, length_take, rank_length. }
  split; [lia |]. split; [exact Hlen |]. split; [reflexivity |].
  split; [apply rank_descending |].
  intros Hk. rewrite take_ge by (rewrite rank_length; lia).
  by rewrite rank_perm.
Qed.

Lemma topK_size_witness :
  vector_stores state_with_document !! "a.pdf" =
    Some {| chunks := [ {| page_content := "first chunk" |};
                        {| page_content := "second chunk" |} ] |}
  /\ exists texts,
       Retriever.topK sample_similarity (vector_stores state_with_document)
         "a.pdf" "summary" 1 = Retriever.Retrieved texts
       /\ length texts <= 1.
Proof.
  assert (H : vector_stores state_with_document !! "a.pdf" =
              Some {| chunks := [ {| page_content := "first chunk" |};
                                  {| page_content := "second chunk" |} ] |})
    by reflexivity.
  split; [exact H |].
  destruct (topK_size sample_similarity (vector_stores state_with_document)
              "a.pdf" "summary" 1 _ H) as (texts & Ht & Hle & _).
  exists texts. split; [exact Ht | exact Hle].
Defined.

(** C3 as stated fails: an index of two chunks asked for its top 3 gives both
    chunks back, not the empty list. *)
Lemma topK_small_index_not_empty :
  exists index,
    vector_stores state_with_document !! "a.pdf" = Some index
    /\ length (chunks index) < 3
    /\ Retriever.topK sample_similarity (vector_stores state_with_document)
         "a.pdf" "summary" 3 =
       Retriever.Retrieved ["second chunk"; "first chunk"]
    /\ Retriever.topK sample_similarity (vector_stores state_with_document)
         "a.pdf" "summary" 3 <> Retriever.Retrieved [].
Proof.
  eexists. split; [reflexivity |]. split; [simpl; lia |].
  split; [reflexivity | discriminate].
Qed.

(** *** The document map and the index map go together *)

Lemma upload_pdf_registries
    (env : Env) (file_name : option string) (content : list Z) (st : State) :
  dom (uploaded_files st) = dom (vector_stores st) ->
  dom (uploaded_files (snd (upload_pdf env file_name content st))) =
  dom (vector_stores (snd (upload_pdf env file_name content st))).
Proof.
  intros H. unfold upload_pdf.
  destruct (names_file file_name) as [name|]; [| exact H].
  destruct (negb _); [exact H |].
  destruct (_ <? _)%Z; [exact H |].
  unfold upload_pdf_body, bind, lift, ret.
  destruct (os_open_error env _); [exact H |].
  destruct (os_write_error env _); [exact H |].
  destruct (faiss_from_pdf env content); simpl; [| exact H].
  by rewrite !dom_insert_L, H.
Qed.

Lemma delete_file_registries (env : Env) (f : string) (st : State) :
  dom (uploaded_files st) = dom (vector_stores st) ->
  dom (uploaded_files (snd (delete_file env f st))) =
  dom (vector_stores (snd (delete_file env f st))).
Proof.
  intros H. unfold delete_file.
  destruct (uploaded_files st !! f) as [info|];
    [case_bool_decide; [destruct (os_remove_error env (path info)) |] |];
    simpl; by rewrite !dom_delete_L, H.
Qed.

Lemma chat_message_registries
    (env : Env) (now : datetime) (request : ChatMessageRequest) (st : State) :
  uploaded_files (snd (chat_message env now request st)) = uploaded_files st
  /\ vector_stores (snd (chat_message env now request st)) = vector_stores st.
Proof.
  assert (Hbody : uploaded_files (snd (chat_message_body env now request st)) =
                    uploaded_files st
                  /\ vector_stores (snd (chat_message_body env now request st)) =
                    vector_stores st).
  { rewrite chat_message_body_prelude. unfold stream_prelude, bind.
    destruct (get_or_create_session env now (session_id request) st)
      as [[s|e] st0] eqn:Hg.
    - assert (Hu : uploaded_files st0 = uploaded_files st
                   /\ vector_stores st0 = vector_stores st).
      { unfold get_or_create_session in Hg.
        destruct (chat_sessions st !! session_id request);
          [| destruct (load_config env) as [config0|e0];
             [destruct (make_llm config0) |]]; by simplify_eq. }
      pose proof (retrieve_context_state env request st0) as Hr.
      destruct (retrieve_context env request st0) as [[[context srcs]|e] st0'];
        simpl in Hr; subst st0'; [| exact Hu].
      unfold ret. destruct (llm_invoke env (llm s) _); exact Hu.
    - unfold get_or_create_session in Hg.
      destruct (chat_sessions st !! session_id request);
        [| destruct (load_config env) as [config0|e0];
             [destruct (make_llm config0) |]]; by simplify_eq. }
  unfold chat_message.
  destruct (names_file (filename request)) as [f|];
    [destruct (vector_stores st !! f); [| done] |];
    destruct (chat_message_body env now request st) as [[r|e] st']; exact Hbody.
Qed.

Lemma generate_stream_registries
    (env : Env) (now : datetime) (request : ChatMessageRequest) (st : State) :
  uploaded_files (snd (generate_stream env now request st)) = uploaded_files st
  /\ vector_stores (snd (generate_stream env now request st)) = vector_stores st.
Proof.
  unfold generate_stream, stream_prelude, bind.
  destruct (get_or_create_session env now (session_id request) st)
    as [[s|e] st0] eqn:Hg.
  - assert (Hu : uploaded_files st0 = uploaded_files st
                 /\ vector_stores st0 = vector_stores st).
    { unfold get_or_create_session in Hg.
      destruct (chat_sessions st !! session_id request);
        [| destruct (load_config env) as [config0|e0];
             [destruct (make_llm config0) |]]; by simplify_eq. }
    pose proof (retrieve_context_state env request st0) as Hr.
    destruct (retrieve_context env request st0) as [[[context srcs]|e] st0'];
      simpl in Hr; subst st0'; [| exact Hu].
    unfold ret. destruct (llm_stream env (llm s) _) as [frags [e|]]; exact Hu.
  - unfold get_or_create_session in Hg.
    destruct (chat_sessions st !! session_id request);
      [| destruct (load_config env) as [config0|e0];
             [destruct (make_llm config0) |]]; by simplify_eq.
Qed.

(** From startup on, a filename has an entry in uploaded_files exactly when it
    has one in vector_stores. *)
Lemma serve_all_registries
    (env : Env) (calls : list ApiCall) (st : State) :
  dom (uploaded_files st) = dom (vector_stores st) ->
  dom (uploaded_files (serve_all env calls st)) =
  dom (vector_stores (serve_all env calls st)).
Proof.
  revert st. unfold serve_all.
  induction calls as [|call calls IH]; intros st H; simpl; [exact H |].
  apply IH. destruct call; simpl; try exact H.
  - by apply upload_pdf_registries.
  - by apply delete_file_registries.
  - destruct (chat_message_registries env now request st) as [-> ->]. exact H.
  - destruct (generate_stream_registries env now request st) as [-> ->]. exact H.
  - by rewrite ask_question_state.
Qed.

(** ** Further properties of the handlers *)

(** *** load_config *)

Lemma prefix_spec (needle hay : string) :
  String.prefix needle hay = true <-> exists after, hay = needle +:+ after.
Proof.
  revert hay. induction needle as [|c needle IH]; intros hay.
  - split; [intros _; by exists hay | intros _; by destruct hay].
  - destruct hay as [|d hay].
    + split; [discriminate | intros [after H]; discriminate H].
    + change (String.prefix (String c needle) (String d hay))
        with (if Ascii.ascii_dec c d then String.prefix needle hay else false).
      destruct (Ascii.ascii_dec c d) as [-> | Hne].
      * rewrite IH. split; intros [after H]; exists after.
        -- by rewrite H.
        -- by injection H.
      * split; [discriminate |]. intros [after H]. injection H as H _. congruence.
Qed.
Lemma is_substring_spec (needle hay : string) :
  is_substring needle hay = true <->
  exists before after, hay = before +:+ needle +:+ after.
Proof.
  induction hay as [|d hay IH].
  - cbn [is_substring]. rewrite orb_false_r, prefix_spec. split.
    + intros [after H]. by exists "", after.
    + intros (before & after & H). destruct before as [|? ?]; [| discriminate H].
      by exists after.
  - cbn [is_substring]. rewrite orb_true_iff, IH, prefix_spec. split.
    + intros [[after H] | (before & after & H)].
      * by exists "", after.
      * exists (String d before), after. by rewrite H.
    + intros (before & after & H). destruct before as [|c before].
      * left. by exists after.
      * right. injection H as _ H. by exists before, after.
Qed.

Lemma key_in_spec (config : config_value) (key : string) :
  key_in key config = true <-> holds_key config key.
Proof.
  destruct config as [c | items | text]; simpl.
  - apply bool_decide_eq_true.
  - rewrite existsb_exists. split.
    + intros (item & Hin & Heq). destruct item; try discriminate.
      apply String.eqb_eq in Heq as ->. by apply list_elem_of_In.
    + intros Hin. exists (JStr key). split; [by apply list_elem_of_In |].
      apply String.eqb_refl.
  - apply is_substring_spec.
Qed.

Lemma missing_keys_spec (config : config_value) (key : string) :
  key ∈ missing_keys config <-> key ∈ required_keys /\ ~ holds_key config key.
Proof.
  unfold missing_keys. rewrite list_elem_of_filter, <- key_in_spec.
  destruct (key_in key config); split; intros [? ?]; split; auto; congruence.
Qed.

Lemma load_config_parsed (env : Env) :
  load_config env =
    match parsed_keys (keys_txt env) with
    | Some config => check_required_keys config
    | None => load_config env
    end.
Proof. unfold load_config. by destruct (keys_txt env). Qed.

(** X1: load_config returns what json.load made of keys.txt, unchanged,
    exactly when that is a dict, a list or a str in which each of API_KEY,
    AI_Agent_URL and AI_Agent_Stream_URL is found: as a key of the dict, as
    an element of the list, or as a part of the str.  So a list or a str
    that merely mentions the three names passes the check.  When some name is
    not found, the call raises the ValueError that lists exactly the names
    not found, in that order. *)
Theorem load_config_outcome (env : Env) :
  (forall config,
     load_config env = Ok config <->
     parsed_keys (keys_txt env) = Some config /\
     forall key, key ∈ required_keys -> holds_key config key)
  /\ (forall config,
        parsed_keys (keys_txt env) = Some config ->
        missing_keys config <> [] ->
        load_config env =
          Raise (ValueError ("Missing keys in keys.txt: " +:+
                             repr_list (missing_keys config)))
        /\ missing_keys config `sublist_of` required_keys
        /\ forall key, key ∈ missing_keys config <->
                       key ∈ required_keys /\ ~ holds_key config key).
Proof.
  split.
  - intros config. split.
    + intros H. rewrite load_config_parsed in H.
      destruct (parsed_keys (keys_txt env)) as [parsed|] eqn:Hp.
      * apply check_required_keys_ok in H as [-> Hall]. split; [reflexivity |].
        intros key Hin. by apply key_in_spec, Hall.
      * exfalso. unfold load_config in H.
        destruct (keys_txt env); discriminate.
    + intros [Hp Hall]. rewrite load_config_parsed, Hp. unfold check_required_keys.
      destruct (missing_keys config) as [|k rest] eqn:Hm; [reflexivity |].
      exfalso. assert (Hin : k ∈ missing_keys config) by (rewrite Hm; left).
      apply missing_keys_spec in Hin as [Hreq Hno]. by apply Hno, Hall.
  - intros config Hp Hm. split; [| split].
    + rewrite load_config_parsed, Hp. unfold check_required_keys.
      destruct (missing_keys config); [congruence | reflexivity].
    + apply sublist_filter.
    + apply missing_keys_spec.
Qed.

Lemma load_config_outcome_witness :
  parsed_keys (keys_txt env_no_stream_url) =
    Some (ConfigObject (delete "AI_Agent_Stream_URL" complete_config))
  /\ load_config env_no_stream_url =
       Raise (ValueError "Missing keys in keys.txt: ['AI_Agent_Stream_URL']")
  /\ load_config env_keys_array =
       Ok (ConfigArray [JStr "API_KEY"; JStr "AI_Agent_URL";
                        JStr "AI_Agent_Stream_URL"]).
Proof.
  assert (Hk : parsed_keys (keys_txt env_no_stream_url) =
               Some (ConfigObject (delete "AI_Agent_Stream_URL" complete_config)))
    by reflexivity.
  assert (Hm : missing_keys
                 (ConfigObject (delete "AI_Agent_Stream_URL" complete_config)) <> [])
    by discriminate.
  split; [exact Hk |]. split.
  - exact (proj1 (proj2 (load_config_outcome env_no_stream_url) _ Hk Hm)).
  - apply (proj1 (load_config_outcome env_keys_array)). split; [reflexivity |].
    intros key Hin. unfold required_keys in Hin. simpl.
    repeat (apply elem_of_cons in Hin as [-> | Hin];
            [repeat (first [by left | right]) |]).
    by apply elem_of_nil in Hin.
Defined.

(** *** What a chat request does to the state *)

Lemma stream_prelude_state
    (env : Env) (now : datetime) (request : ChatMessageRequest) (st : State) :
  snd (stream_prelude env now request st) =
  snd (get_or_create_session env now (session_id request) st).
Proof.
  unfold stream_prelude, bind.
  destruct (get_or_create_session env now (session_id request) st) as [[s|e] st0];
    [| reflexivity].
  pose proof (retrieve_context_state env request st0) as Hr.
  destruct (retrieve_context env request st0) as [[[context srcs]|e] st0'];
    exact Hr.
Qed.

Lemma get_or_create_session_nothing_recorded
    (env : Env) (now : datetime) (sid : string) (st : State) :
  nothing_recorded sid st (snd (get_or_create_session env now sid st)).
Proof.
  unfold get_or_create_session, nothing_recorded.
  destruct (chat_sessions st !! sid) as [s|] eqn:Hs; [by left |].
  destruct (load_config env) as [config|e]; [| by left].
  destruct (make_llm config) as [client|e]; [| by left].
  right. split; [reflexivity |]. by exists (session_with client now).
Qed.

Lemma get_or_create_session_lookup
    (env : Env) (now : datetime) (sid : string) (st st1 : State) (session : Session) :
  get_or_create_session env now sid st = (Ok session, st1) ->
  chat_sessions st1 !! sid = Some session
  /\ memory session = history_of st sid
  /\ message_count session = count_of st sid
  /\ forall s, chat_sessions st !! sid = Some s -> session = s.
Proof.
  unfold get_or_create_session, history_of, count_of. intros H.
  destruct (chat_sessions st !! sid) as [s|] eqn:Hs.
  - injection H as <- <-. rewrite Hs. repeat split. by intros ? [= ->].
  - destruct (load_config env) as [config|e]; [| discriminate].
    destruct (make_llm config) as [client|e]; [| discriminate].
    injection H as <- <-. simpl. by rewrite lookup_insert_eq.
Qed.

Lemma turn_recorded_history (sid user_message response : string) (st st' : State) :
  turn_recorded sid user_message response st st' ->
  exists created,
    get_chat_history sid st' =
      get_chat_history sid st ++
        [ {| role := "user"; entry_content := user_message; timestamp := created |};
          {| role := "assistant"; entry_content := response;
             timestamp := created |} ].
Proof.
  intros ((s' & Hs' & Hm & _ & Hsame) & _).
  exists (created_at s'). unfold get_chat_history, history_of in *.
  rewrite Hs', Hm, map_app. simpl.
  destruct (chat_sessions st !! sid) as [s|]; [| reflexivity].
  by destruct (Hsame s eq_refl) as [-> _].
Qed.

Lemma nothing_recorded_frame (sid : string) (st st' : State) :
  nothing_recorded sid st st' ->
  (forall sid', sid' <> sid -> chat_sessions st' !! sid' = chat_sessions st !! sid')
  /\ uploaded_files st' = uploaded_files st
  /\ vector_stores st' = vector_stores st
  /\ disk st' = disk st.
Proof.
  intros [-> | (Hs & s & _ & _ & ->)]; [done |].
  simpl. split; [| done]. intros sid' Hne. by rewrite lookup_insert_ne.
Qed.

Lemma nothing_recorded_history (sid : string) (st st' : State) :
  nothing_recorded sid st st' ->
  forall sid', get_chat_history sid' st' = get_chat_history sid' st.
Proof.
  intros [-> | (Hs & s & Hm & _ & ->)] sid'; [done |].
  unfold get_chat_history; simpl.
  destruct (decide (sid = sid')) as [<- | Hne].
  - by rewrite lookup_insert_eq, Hs, Hm.
  - by rewrite lookup_insert_ne.
Qed.

Lemma commit_turn_recorded
    (env : Env) (now : datetime) (sid user_message response : string)
    (st st1 : State) (session : Session) :
  get_or_create_session env now sid st = (Ok session, st1) ->
  turn_recorded sid user_message response st
    (snd (commit_turn sid user_message response st1)).
Proof.
  intros Hget.
  destruct (get_or_create_session_lookup _ _ _ _ _ _ Hget) as (Hl & Hm & Hc & Hsame).
  pose proof (get_or_create_session_nothing_recorded env now sid st) as Hn.
  rewrite Hget in Hn; simpl in Hn.
  destruct (nothing_recorded_frame _ _ _ Hn) as (Hother & Hu & Hv & Hd).
  unfold turn_recorded, commit_turn; simpl.
  split; [| split; [| done]].
  - exists (record_turn user_message response session).
    split; [by rewrite lookup_alter_eq, Hl |].
    simpl. rewrite Hm, Hc. repeat split; by rewrite (Hsame s).
  - intros sid' Hne. rewrite lookup_alter_ne by done. by apply Hother.
Qed.

(** The four ways chat_message can end. *)
Lemma chat_message_cases
    (env : Env) (now : datetime) (request : ChatMessageRequest) (st : State) :
  (exists f, names_file (filename request) = Some f /\ vector_stores st !! f = None /\
     chat_message env now request st =
       (HTTPException 400 "PDF not found. Upload before chatting.", st))
  \/ (exists e,
        chat_message env now request st =
          (HTTPException 500 ("Chat error: " +:+ str_exn e),
           snd (get_or_create_session env now (session_id request) st)))
  \/ (exists session sources prompt st1 response,
        stream_prelude env now request st = (Ok (session, sources, prompt), st1)
        /\ llm_invoke env (llm session) prompt = Ok response
        /\ chat_message env now request st =
             (Http200 {| resp_content := response;
                         resp_sources := Some sources;
                         resp_session_id := session_id request;
                         resp_success := true |},
              snd (commit_turn (session_id request) (message request) response st1))).
Proof.
  destruct (names_file (filename request)) as [f|] eqn:Hf.
  - destruct (vector_stores st !! f) as [store|] eqn:Hv.
    + right.
      assert (Hcm : chat_message env now request st =
                match chat_message_body env now request st with
                | (Ok r, st') => (Http200 r, st')
                | (Raise e, st') =>
                    (HTTPException 500 ("Chat error: " +:+ str_exn e), st')
                end) by (unfold chat_message; by rewrite Hf, Hv).
      rewrite Hcm, chat_message_body_prelude.
      pose proof (stream_prelude_state env now request st) as Hst.
      destruct (stream_prelude env now request st)
        as [[[[session sources] prompt]|e] st1] eqn:Hpre; simpl in Hst.
      * destruct (llm_invoke env (llm session) prompt) as [response|e] eqn:Hi.
        -- right. by exists session, sources, prompt, st1, response.
        -- left. exists e. by rewrite <- Hst.
      * left. exists e. by rewrite <- Hst.
    + left. exists f. split; [done |]. split; [done |].
      unfold chat_message. by rewrite Hf, Hv.
  - right.
    assert (Hcm : chat_message env now request st =
              match chat_message_body env now request st with
              | (Ok r, st') => (Http200 r, st')
              | (Raise e, st') =>
                  (HTTPException 500 ("Chat error: " +:+ str_exn e), st')
              end) by (unfold chat_message; by rewrite Hf).
    rewrite Hcm, chat_message_body_prelude.
    pose proof (stream_prelude_state env now request st) as Hst.
    destruct (stream_prelude env now request st)
      as [[[[session sources] prompt]|e] st1] eqn:Hpre; simpl in Hst.
    + destruct (llm_invoke env (llm session) prompt) as [response|e] eqn:Hi.
      * right. by exists session, sources, prompt, st1, response.
      * left. exists e. by rewrite <- Hst.
    + left. exists e. by rewrite <- Hst.
Qed.

(** X2: a chat request answered with a body has recorded exactly one turn:
    the user message and the returned answer are appended, in that order, to
    the history of the request's session (started empty if the id was new),
    its counter goes up by one, and no other session, no registry and no file
    is touched.  The body echoes the session id and carries success = true. *)
Theorem chat_message_success_records_turn
    (env : Env) (now : datetime) (request : ChatMessageRequest) (st st' : State)
    (r : ChatMessageResponse) :
  chat_message env now request st = (Http200 r, st') ->
  turn_recorded (session_id request) (message request) (resp_content r) st st'
  /\ resp_session_id r = session_id request
  /\ resp_success r = true
  /\ exists created,
       get_chat_history (session_id request) st' =
         get_chat_history (session_id request) st ++
           [ {| role := "user"; entry_content := message request;
                timestamp := created |};
             {| role := "assistant"; entry_content := resp_content r;
                timestamp := created |} ].
Proof.
  intros H.
  destruct (chat_message_cases env now request st)
    as [(f & _ & _ & H') | [(e & H') |
        (session & sources & prompt & st1 & response & Hpre & Hi & H')]];
    rewrite H' in H; try discriminate.
  injection H as <- <-. simpl.
  apply stream_prelude_inv in Hpre as (Hget & _).
  pose proof (commit_turn_recorded env now _ (message request) response _ _ _ Hget)
    as Hrec.
  split; [exact Hrec |]. split; [reflexivity |]. split; [reflexivity |].
  exact (turn_recorded_history _ _ _ _ _ Hrec).
Qed.

Lemma chat_message_success_records_turn_witness :
  chat_message env_ok "2024-02-02T00:00:00" request_plain state_with_session =
    (Http200 {| resp_content := "Hello"; resp_sources := Some [];
                resp_session_id := "s1"; resp_success := true |},
     snd (commit_turn "s1" "and then?" "Hello" state_with_session))
  /\ turn_recorded "s1" "and then?" "Hello" state_with_session
       (snd (commit_turn "s1" "and then?" "Hello" state_with_session)).
Proof.
  assert (H : chat_message env_ok "2024-02-02T00:00:00" request_plain
                state_with_session =
              (Http200 {| resp_content := "Hello"; resp_sources := Some [];
                          resp_session_id := "s1"; resp_success := true |},
               snd (commit_turn "s1" "and then?" "Hello" state_with_session)))
    by reflexivity.
  split; [exact H |].
  exact (proj1 (chat_message_success_records_turn _ _ _ _ _ _ H)).
Defined.

(** X3: a chat request answered with an HTTPException has recorded nothing:
    the state is as before, or a session without history was registered
    under the request's unseen id before the failure; every history reads as
    it did, and a 400 leaves the state exactly as it was. *)
Theorem chat_message_failure_records_nothing
    (env : Env) (now : datetime) (request : ChatMessageRequest) (st st' : State)
    (status_code : Z) (detail : string) :
  chat_message env now request st = (HTTPException status_code detail, st') ->
  nothing_recorded (session_id request) st st'
  /\ (forall sid, get_chat_history sid st' = get_chat_history sid st)
  /\ (status_code = 400%Z -> st' = st)
  /\ (status_code = 400%Z \/ status_code = 500%Z).
Proof.
  intros H.
  destruct (chat_message_cases env now request st)
    as [(f & _ & _ & H') | [(e & H') |
        (session & sources & prompt & st1 & response & Hpre & Hi & H')]];
    rewrite H' in H; try discriminate; injection H as <- <- <-.
  - assert (Hn : nothing_recorded (session_id request) st st) by by left.
    split; [exact Hn |]. split; [done |]. split; [done | by left].
  - pose proof (get_or_create_session_nothing_recorded
                  env now (session_id request) st) as Hn.
    split; [exact Hn |]. split; [by apply nothing_recorded_history with (session_id request) |].
    split; [discriminate | by right].
Qed.

Lemma chat_message_failure_records_nothing_witness :
  chat_message env_unconfigured "2024-02-02T00:00:00" request_plain empty_state =
    (HTTPException 500
       "Chat error: keys.txt not found. Please create it with your API configuration.",
     empty_state)
  /\ nothing_recorded "s1" empty_state empty_state.
Proof.
  assert (H : chat_message env_unconfigured "2024-02-02T00:00:00" request_plain
                empty_state =
              (HTTPException 500
                 "Chat error: keys.txt not found. Please create it with your API configuration.",
               empty_state)) by reflexivity.
  split; [exact H |].
  exact (proj1 (chat_message_failure_records_nothing _ _ _ _ _ _ _ H)).
Defined.

(** *** What a streaming request yields and does *)

(** The two ways generate_stream can end. *)
Lemma generate_stream_cases
    (env : Env) (now : datetime) (request : ChatMessageRequest) (st : State) :
  exists fragments,
    (exists e,
       generate_stream env now request st =
         (map chunk_event fragments ++ [error_event e (session_id request); SseDone],
          snd (get_or_create_session env now (session_id request) st)))
    \/ (exists session sources prompt st1,
          stream_prelude env now request st = (Ok (session, sources, prompt), st1)
          /\ llm_stream env (llm session) prompt = (fragments, None)
          /\ generate_stream env now request st =
               (map chunk_event fragments ++
                  [final_event (String.concat "" fragments) sources
                     (session_id request); SseDone],
                snd (commit_turn (session_id request) (message request)
                       (String.concat "" fragments) st1))).
Proof.
  unfold generate_stream.
  pose proof (stream_prelude_state env now request st) as Hst.
  destruct (stream_prelude env now request st)
    as [[[[session sources] prompt]|e] st1] eqn:Hpre; simpl in Hst.
  - destruct (llm_stream env (llm session) prompt) as [fragments [e|]] eqn:Hs;
      exists fragments.
    + left. exists e. by rewrite <- Hst.
    + right. by exists session, sources, prompt, st1.
  - exists []. left. exists e. by rewrite <- Hst.
Qed.

Lemma chunk_event_not_terminal (events : list string) (x : sse) :
  x ∈ map chunk_event events ->
  (forall a sources sid, x <> final_event a sources sid)
  /\ (forall e sid, x <> error_event e sid).
Proof.
  intros Hin. apply list_elem_of_In, in_map_iff in Hin as (c & <- & _).
  split; intros; discriminate.
Qed.

(** X4: a streaming request that is not cancelled (the generator is run to
    its end, and what fails raises an Exception) yields zero or more
    {"content": fragment} events, then exactly one terminal event, then the
    end marker.  The terminal event is either {"content": the concatenation
    of the fragments sent before it, "sources": ..., "session_id": the
    request's, "success": true}, or {"content": "Error: " and the text of the
    exception, "session_id": the request's, "success": false}. *)
Theorem generate_stream_shape
    (env : Env) (now : datetime) (request : ChatMessageRequest) (st : State) :
  exists fragments terminal,
    fst (generate_stream env now request st) =
      map (fun fragment => SseData (JObject [("content", JStr fragment)])) fragments ++
        [terminal; SseDone]
    /\ ((exists sources,
           terminal =
             SseData (JObject [("content", JStr (String.concat "" fragments));
                               ("sources", JList (map JStr sources));
                               ("session_id", JStr (session_id request));
                               ("success", JBool true)]))
        \/ (exists e,
              terminal =
                SseData (JObject [("content", JStr ("Error: " +:+ str_exn e));
                                  ("session_id", JStr (session_id request));
                                  ("success", JBool false)]))).
Proof.
  destruct (generate_stream_cases env now request st)
    as (fragments & [(e & H) | (session & sources & prompt & st1 & _ & _ & H)]);
    rewrite H; exists fragments; eexists; (split; [reflexivity |]).
  - right. by exists e.
  - left. by exists sources.
Qed.



(** X6: a stream that carries an error event has recorded nothing, whatever
    failed (configuration, retrieval, or the model before or between
    fragments): every history reads as before, and the state is as before or
    differs by a session without history under the request's unseen id. *)
Theorem generate_stream_error_records_nothing
    (env : Env) (now : datetime) (request : ChatMessageRequest) (st st' : State)
    (events : list sse) (e : exn) :
  generate_stream env now request st = (events, st') ->
  error_event e (session_id request) ∈ events ->
  nothing_recorded (session_id request) st st'
  /\ (forall sid, get_chat_history sid st' = get_chat_history sid st)
  /\ exists fragments,
       events = map chunk_event fragments ++
                  [error_event e (session_id request); SseDone].
Proof.
  intros H Hin.
  destruct (generate_stream_cases env now request st)
    as (fragments & [(e' & H') | (session & srcs & prompt & st1 & Hpre & _ & H')]);
    rewrite H' in H; injection H as <- <-.
  - pose proof (get_or_create_session_nothing_recorded
                  env now (session_id request) st) as Hn.
    split; [exact Hn |].
    split; [by apply nothing_recorded_history with (session_id request) |].
    exists fragments.
    apply elem_of_app in Hin as [Hin | Hin].
    + apply chunk_event_not_terminal in Hin as [_ Hin].
      by destruct (Hin e (session_id request)).
    + apply elem_of_cons in Hin as [Hin | Hin]; [by rewrite Hin |].
      apply elem_of_cons in Hin as [Hin | Hin]; [discriminate |].
      by apply elem_of_nil in Hin.
  - exfalso. apply elem_of_app in Hin as [Hin | Hin].
    + apply chunk_event_not_terminal in Hin as [_ Hin].
      by destruct (Hin e (session_id request)).
    + apply elem_of_cons in Hin as [Hin | Hin]; [discriminate |].
      apply elem_of_cons in Hin as [Hin | Hin]; [discriminate |].
      by apply elem_of_nil in Hin.
Qed.

Lemma generate_stream_error_records_nothing_witness :
  generate_stream env_stream_breaks "2024-02-02T00:00:00" request_plain
    state_with_session =
    ([chunk_event "Hel"; chunk_event "lo";
      error_event (ExternalError "connection reset") "s1"; SseDone],
     state_with_session)
  /\ nothing_recorded "s1" state_with_session state_with_session.
Proof.
  assert (H : generate_stream env_stream_breaks "2024-02-02T00:00:00" request_plain
                state_with_session =
              ([chunk_event "Hel"; chunk_event "lo";
                error_event (ExternalError "connection reset") "s1"; SseDone],
               state_with_session)) by reflexivity.
  assert (Hin : error_event (ExternalError "connection reset")
                  (session_id request_plain) ∈
                [chunk_event "Hel"; chunk_event "lo";
                 error_event (ExternalError "connection reset") "s1"; SseDone])
    by (do 2 right; left).
  split; [exact H |].
  exact (proj1 (generate_stream_error_records_nothing _ _ _ _ _ _ _ H Hin)).
Defined.

(** *** Sessions over time *)

Lemma chat_message_step
    (env : Env) (now : datetime) (request : ChatMessageRequest) (st : State) :
  nothing_recorded (session_id request) st (snd (chat_message env now request st))
  \/ exists a, turn_recorded (session_id request) (message request) a st
                 (snd (chat_message env now request st)).
Proof.
  destruct (chat_message env now request st) as [[r|code detail] st'] eqn:H; simpl.
  - right. exists (resp_content r).
    by apply (chat_message_success_records_turn env now request st st' r).
  - left.
    by apply (chat_message_failure_records_nothing env now request st st' code detail).
Qed.

Lemma generate_stream_step
    (env : Env) (now : datetime) (request : ChatMessageRequest) (st : State) :
  nothing_recorded (session_id request) st (snd (generate_stream env now request st))
  \/ exists a, turn_recorded (session_id request) (message request) a st
                 (snd (generate_stream env now request st)).
Proof.
  destruct (generate_stream_cases env now request st)
    as (fragments & [(e & H) | (session & srcs & prompt & st1 & Hpre & _ & H)]);
    rewrite H; simpl.
  - left. apply get_or_create_session_nothing_recorded.
  - right. exists (String.concat "" fragments).
    apply stream_prelude_inv in Hpre as (Hget & _).
    by apply commit_turn_recorded with env now session.
Qed.

Lemma turn_recorded_prefix
    (sid0 user_message a : string) (st st' : State) (sid : string) :
  turn_recorded sid0 user_message a st st' ->
  get_chat_history sid st `prefix_of` get_chat_history sid st'.
Proof.
  intros Hrec. destruct (decide (sid = sid0)) as [-> | Hne].
  - destruct (turn_recorded_history _ _ _ _ _ Hrec) as [created ->].
    by eexists.
  - destruct Hrec as (_ & Hother & _).
    unfold get_chat_history. by rewrite (Hother sid Hne).
Qed.

(** X7: histories are append-only.  Whatever request is served, the history
    of a session afterwards starts with its history before, unless the
    request clears that very session; so a run of requests that never clears
    a session only ever extends what get_chat_history returns for it. *)
Theorem history_append_only
    (env : Env) (calls : list ApiCall) (sid : string) (st : State) :
  Forall (fun call => call <> CallClear sid) calls ->
  get_chat_history sid st `prefix_of` get_chat_history sid (serve_all env calls st).
Proof.
  unfold serve_all. revert st.
  induction calls as [|call calls IH]; intros st Hall; simpl; [reflexivity |].
  apply Forall_cons in Hall as [Hcall Hall].
  transitivity (get_chat_history sid (serve env call st)); [| by apply IH].
  clear IH Hall.
  destruct call as [| | file_name content | f | now request | now request
                    | hsid | csid | qrequest]; simpl; try reflexivity.
  - unfold get_chat_history. by rewrite upload_pdf_chat_sessions.
  - unfold get_chat_history. by rewrite delete_file_chat_sessions.
  - destruct (chat_message_step env now request st) as [Hn | [a Hrec]].
    + by rewrite (nothing_recorded_history _ _ _ Hn).
    + by apply turn_recorded_prefix with (session_id request) (message request) a.
  - destruct (generate_stream_step env now request st) as [Hn | [a Hrec]].
    + by rewrite (nothing_recorded_history _ _ _ Hn).
    + by apply turn_recorded_prefix with (session_id request) (message request) a.
  - assert (Hne : csid <> sid) by congruence.
    unfold get_chat_history, clear_chat_session; simpl.
    by rewrite lookup_delete_ne.
  - by rewrite ask_question_state.
Qed.

Lemma history_append_only_witness :
  Forall (fun call => call <> CallClear "s1")
    [CallChat "2024-02-02T00:00:00" request_plain; CallClear "s2"]
  /\ get_chat_history "s1" state_with_session `prefix_of`
       get_chat_history "s1"
         (serve_all env_ok
            [CallChat "2024-02-02T00:00:00" request_plain; CallClear "s2"]
            state_with_session).
Proof.
  assert (H : Forall (fun call => call <> CallClear "s1")
                [CallChat "2024-02-02T00:00:00" request_plain; CallClear "s2"])
    by (repeat constructor; discriminate).
  split; [exact H |].
  exact (history_append_only env_ok _ "s1" state_with_session H).
Defined.

(** X8: clear_chat_session forgets the session and nothing else: its history
    reads empty afterwards, every other session, both registries and the disk
    are as before, clearing twice is clearing once (also for an id without a
    session), and with a complete configuration (a keys.txt dict holding the
    three keys) the next get_or_create_session for that id starts a session
    with no history and a zero counter; whenever that next call succeeds, the
    session it returns is such a new one. *)
Theorem clear_chat_session_forgets (sid : string) (st : State) :
  get_chat_history sid (clear_chat_session sid st) = []
  /\ chat_sessions (clear_chat_session sid st) !! sid = None
  /\ (forall sid', sid' <> sid ->
        chat_sessions (clear_chat_session sid st) !! sid' = chat_sessions st !! sid')
  /\ uploaded_files (clear_chat_session sid st) = uploaded_files st
  /\ vector_stores (clear_chat_session sid st) = vector_stores st
  /\ disk (clear_chat_session sid st) = disk st
  /\ clear_chat_session sid (clear_chat_session sid st) = clear_chat_session sid st
  /\ (chat_sessions st !! sid = None -> clear_chat_session sid st = st)
  /\ (forall env now config,
        load_config env = Ok (ConfigObject config) ->
        exists s st',
          get_or_create_session env now sid (clear_chat_session sid st) = (Ok s, st')
          /\ memory s = [] /\ message_count s = 0%Z /\ created_at s = now
          /\ get_chat_history sid st' = [])
  /\ (forall env now s st',
        get_or_create_session env now sid (clear_chat_session sid st) = (Ok s, st') ->
        memory s = [] /\ message_count s = 0%Z /\ created_at s = now
        /\ get_chat_history sid st' = []).
Proof.
  assert (Hnone : chat_sessions (clear_chat_session sid st) !! sid = None)
    by apply lookup_delete_eq.
  split; [unfold get_chat_history; by rewrite Hnone |].
  split; [exact Hnone |].
  split; [intros sid' Hne; simpl; by apply lookup_delete_ne |].
  do 3 (split; [reflexivity |]).
  split; [unfold clear_chat_session, set_chat_sessions; simpl;
          by rewrite delete_delete_eq |].
  split; [| split].
  - intros Hs. destruct st as [u v c d]. unfold clear_chat_session, set_chat_sessions.
    simpl in *. by rewrite delete_id.
  - intros env now config Hc.
    rewrite (get_or_create_session_fresh env now sid _ config Hnone Hc).
    eexists _, _. split; [reflexivity |]. do 3 (split; [reflexivity |]).
    unfold get_chat_history; simpl. by rewrite lookup_insert_eq.
  - intros env now s st' Hg.
    destruct (get_or_create_session_outcome env now sid _ Hnone)
      as [[e He] | [client Hc]]; rewrite He in Hg || rewrite Hc in Hg;
      [discriminate |].
    injection Hg as <- <-. do 3 (split; [reflexivity |]).
    unfold get_chat_history; simpl. by rewrite lookup_insert_eq.
Qed.

Lemma clear_chat_session_forgets_witness :
  chat_sessions empty_state !! "s1" = None
  /\ clear_chat_session "s1" empty_state = empty_state
  /\ load_config env_ok = Ok (ConfigObject complete_config)
  /\ get_chat_history "s1" (clear_chat_session "s1" state_with_session) = [].
Proof.
  assert (Hs : chat_sessions empty_state !! "s1" = None) by reflexivity.
  assert (Hc : load_config env_ok = Ok (ConfigObject complete_config)) by reflexivity.
  destruct (clear_chat_session_forgets "s1" empty_state)
    as (_ & _ & _ & _ & _ & _ & _ & Hid & _).
  destruct (clear_chat_session_forgets "s1" state_with_session)
    as (Hh & _ & _ & _ & _ & _ & _ & _ & Hnew & _).
  destruct (Hnew env_ok "2024-02-02T00:00:00" complete_config Hc) as (s & st' & _).
  split; [exact Hs | split; [exact (Hid Hs) | split; [exact Hc | exact Hh]]].
Defined.

(** *** Sessions hold completed turns *)

Lemma turn_messages_snoc (turns : list (string * string)) (q a : string) :
  turn_messages (turns ++ [(q, a)]) =
  turn_messages turns ++ [HumanMessage q; AIMessage a].
Proof. unfold turn_messages. by rewrite flat_map_app. Qed.

Lemma nothing_recorded_holds_turns (sid : string) (st st' : State) :
  nothing_recorded sid st st' -> sessions_hold_turns st -> sessions_hold_turns st'.
Proof.
  intros [-> | (Hs & s & Hm & Hc & ->)] Hinv; [exact Hinv |].
  intros sid' s' Hl. simpl in Hl.
  destruct (decide (sid = sid')) as [<- | Hne].
  - rewrite lookup_insert_eq in Hl. injection Hl as <-.
    exists []. by rewrite Hm, Hc.
  - rewrite lookup_insert_ne in Hl by done. by apply Hinv with sid'.
Qed.

Lemma turn_recorded_holds_turns (sid q a : string) (st st' : State) :
  turn_recorded sid q a st st' -> sessions_hold_turns st -> sessions_hold_turns st'.
Proof.
  intros ((s' & Hs' & Hm & Hc & _) & Hother & _) Hinv sid' s Hl.
  destruct (decide (sid' = sid)) as [-> | Hne].
  - rewrite Hs' in Hl. injection Hl as <-.
    unfold history_of, count_of in *.
    destruct (chat_sessions st !! sid) as [s0|] eqn:Hs0.
    + destruct (Hinv sid s0 Hs0) as (turns & Ht & Hn).
      exists (turns ++ [(q, a)]).
      rewrite turn_messages_snoc, Hm, Hc, Ht, Hn, length_app. simpl.
      split; [reflexivity | lia].
    + exists [(q, a)]. by rewrite Hm, Hc.
  - rewrite (Hother sid' Hne) in Hl. by apply Hinv with sid'.
Qed.

Lemma serve_holds_turns (env : Env) (call : ApiCall) (st : State) :
  sessions_hold_turns st -> sessions_hold_turns (serve env call st).
Proof.
  intros Hinv.
  destruct call as [| | file_name content | f | now request | now request
                    | hsid | csid | qrequest]; simpl; try exact Hinv.
  - intros sid s. rewrite upload_pdf_chat_sessions. apply Hinv.
  - intros sid s. rewrite delete_file_chat_sessions. apply Hinv.
  - destruct (chat_message_step env now request st) as [Hn | [a Hrec]].
    + by apply nothing_recorded_holds_turns with (session_id request) st.
    + by apply turn_recorded_holds_turns with (session_id request) (message request) a st.
  - destruct (generate_stream_step env now request st) as [Hn | [a Hrec]].
    + by apply nothing_recorded_holds_turns with (session_id request) st.
    + by apply turn_recorded_holds_turns with (session_id request) (message request) a st.
  - intros sid s Hl. simpl in Hl.
    apply lookup_delete_Some in Hl as [_ Hl]. by apply Hinv with sid.
  - by rewrite ask_question_state.
Qed.

(** X9: from startup on, whatever requests are served, every session holds
    completed turns only: its history is a sequence of (user message,
    assistant message) pairs, so it has exactly twice as many messages as the
    session's counter says, and get_chat_history alternates "user" and
    "assistant", starting with "user". *)
Theorem sessions_hold_turns_invariant
    (env : Env) (fs : gset string) (calls : list ApiCall) (st0 : State)
    (sid : string) (s : Session) :
  startup env fs = Ok st0 ->
  chat_sessions (serve_all env calls st0) !! sid = Some s ->
  exists turns,
    memory s = turn_messages turns
    /\ message_count s = Z.of_nat (length turns)
    /\ Z.of_nat (length (memory s)) = (2 * message_count s)%Z
    /\ map role (get_chat_history sid (serve_all env calls st0)) =
         flat_map (fun _ => ["user"; "assistant"]) turns.
Proof.
  intros Hstart Hs.
  assert (Hinv : sessions_hold_turns (serve_all env calls st0)).
  { assert (H0 : sessions_hold_turns st0).
    { injection Hstart as <-. intros sid' s' Hl. simpl in Hl.
      by rewrite lookup_empty in Hl. }
    clear Hs Hstart. revert st0 H0. unfold serve_all.
    induction calls as [|call calls IH]; intros st0 H0; simpl; [exact H0 |].
    apply IH. by apply serve_holds_turns. }
  destruct (Hinv sid s Hs) as (turns & Ht & Hn).
  exists turns. split; [exact Ht |]. split; [exact Hn |]. split.
  - rewrite Ht, Hn. clear. induction turns as [|t turns IH]; simpl; [reflexivity |].
    simpl in IH. lia.
  - unfold get_chat_history. rewrite Hs, Ht. clear.
    induction turns as [|t turns IH]; simpl; [reflexivity |]. by rewrite IH.
Qed.

Lemma sessions_hold_turns_invariant_witness :
  startup env_ok ∅ = Ok empty_state
  /\ exists s,
       chat_sessions
         (serve_all env_ok
            [CallChat "2024-02-02T00:00:00" request_plain;
             CallChatStream "2024-02-02T00:00:01" request_plain]
            empty_state) !! "s1" = Some s
       /\ Z.of_nat (length (memory s)) = (2 * message_count s)%Z.
Proof.
  assert (H0 : startup env_ok ∅ = Ok empty_state) by reflexivity.
  split; [exact H0 |].
  eexists. split; [reflexivity |].
  destruct (sessions_hold_turns_invariant env_ok ∅
              [CallChat "2024-02-02T00:00:00" request_plain;
               CallChatStream "2024-02-02T00:00:01" request_plain]
              empty_state "s1" _ H0 eq_refl) as (turns & _ & _ & Hlen & _).
  exact Hlen.
Defined.

(** *** File names *)

Lemma string_app_cons (c : Ascii.ascii) (a b : string) :
  String c a +:+ b = String c (a +:+ b).
Proof. reflexivity. Qed.

Lemma string_app_length (a b : string) :
  String.length (a +:+ b) = String.length a + String.length b.
Proof.
  induction a as [|c a IH]; [reflexivity |].
  rewrite string_app_cons. simpl. by rewrite IH.
Qed.

Lemma substring_suffix (pre suf : string) :
  String.substring (String.length pre) (String.length suf) (pre +:+ suf) = suf.
Proof.
  induction pre as [|c pre IH]; [| rewrite string_app_cons; exact IH].
  change ("" +:+ suf) with suf. simpl String.length.
  induction suf as [|c suf IH]; [reflexivity |]. simpl. by rewrite IH.
Qed.

Lemma substring_split (s : string) (n : nat) :
  n <= String.length s ->
  s = String.substring 0 n s +:+ String.substring n (String.length s - n) s.
Proof.
  revert n. induction s as [|c s IH]; intros n Hn; simpl in Hn.
  - assert (n = 0) as -> by lia. reflexivity.
  - destruct n as [|n].
    + simpl. change ("" +:+ ?x) with x. f_equal.
      clear. induction s as [|c s IH]; [reflexivity |]. simpl. by rewrite <- IH.
    + simpl. rewrite string_app_cons. f_equal. apply IH. lia.
Qed.

(** endswith is Python's: the string is something followed by the suffix. *)
Lemma endswith_spec (s suffix : string) :
  endswith s suffix = true <-> exists pre, s = pre +:+ suffix.
Proof.
  unfold endswith. rewrite andb_true_iff, Nat.leb_le, String.eqb_eq. split.
  - intros [Hle Hsub].
    exists (String.substring 0 (String.length s - String.length suffix) s).
    pose proof (substring_split s (String.length s - String.length suffix)) as H.
    replace (String.length s - (String.length s - String.length suffix))
      with (String.length suffix) in H by lia.
    rewrite Hsub in H. apply H. lia.
  - intros [pre ->]. rewrite string_app_length. split; [lia |].
    replace (String.length pre + String.length suffix - String.length suffix)
      with (String.length pre) by lia.
    apply substring_suffix.
Qed.

Lemma slash_free_cons (c : Ascii.ascii) (s : string) :
  slash_free (String c s) <-> c <> "/"%char /\ slash_free s.
Proof.
  unfold slash_free. simpl. rewrite not_elem_of_cons. split; intros [H1 H2]; split;
    auto.
Qed.

Lemma has_slash_spec (s : string) :
  existsb (Ascii.eqb "/"%char) (String.list_ascii_of_string s) = false <->
  slash_free s.
Proof.
  induction s as [|c s IH]; cbn [String.list_ascii_of_string existsb].
  - split; [| done]. intros _. apply not_elem_of_nil.
  - rewrite slash_free_cons, orb_false_iff, IH, Ascii.eqb_neq. split; intros [H1 H2];
      split; auto.
Qed.

Lemma basename_slash_free (p : string) : slash_free (basename p).
Proof.
  induction p as [|c p IH]; simpl; [apply not_elem_of_nil |].
  destruct (Ascii.eqb c "/") eqn:Ec; [exact IH |].
  destruct (existsb _ _) eqn:Es; [exact IH |].
  apply slash_free_cons. split; [by apply Ascii.eqb_neq | by apply has_slash_spec].
Qed.

Lemma basename_of_slash_free (p : string) : slash_free p -> basename p = p.
Proof.
  destruct p as [|c p]; [reflexivity |].
  intros [Hc Hp]%slash_free_cons. simpl.
  apply Ascii.eqb_neq in Hc. apply has_slash_spec in Hp. by rewrite Hc, Hp.
Qed.

Lemma basename_keeps_tail (dir name : string) :
  slash_free name -> name <> "" ->
  exists pre, basename (dir +:+ name) = pre +:+ name.
Proof.
  intros Hfree Hne. induction dir as [|c dir IH].
  - exists "". change ("" +:+ name) with name. by apply basename_of_slash_free.
  - rewrite string_app_cons. simpl.
    destruct (Ascii.eqb c "/"); [exact IH |].
    destruct (existsb _ _); [exact IH |].
    by exists (String c dir).
Qed.

Lemma lower_ascii_slash (c : Ascii.ascii) :
  lower_ascii c = "/"%char -> c = "/"%char.
Proof.
  destruct c as [[] [] [] [] [] [] [] []]; vm_compute; congruence.
Qed.

Lemma lower_slash_free (s : string) : slash_free (lower s) -> slash_free s.
Proof.
  induction s as [|c s IH]; [done |]. simpl.
  rewrite !slash_free_cons. intros [Hc Hs]. split; [| by apply IH].
  intros ->. by apply Hc.
Qed.

Lemma lower_app_inv (s a b : string) :
  lower s = a +:+ b ->
  exists a' b', s = a' +:+ b' /\ lower a' = a /\ lower b' = b.
Proof.
  revert s. induction a as [|c a IH]; intros s H.
  - by exists "", s.
  - rewrite string_app_cons in H. destruct s as [|c' s]; [discriminate |].
    simpl in H. injection H as Hc Hs.
    destruct (IH s Hs) as (a' & b' & -> & Ha & Hb).
    exists (String c' a'), b'. simpl. by rewrite Hc, Ha, Hb.
Qed.

(** A name that passes the ".pdf" check is stored under a name that is not
    empty and holds no slash. *)
Lemma pdf_basename (name : string) :
  endswith (lower name) ".pdf" = true ->
  basename name <> "" /\ slash_free (basename name).
Proof.
  intros [pre Hpre]%endswith_spec. split; [| apply basename_slash_free].
  apply lower_app_inv in Hpre as (a' & b' & -> & _ & Hb).
  assert (Hfree : slash_free b').
  { apply lower_slash_free. rewrite Hb. unfold slash_free. simpl.
    rewrite !not_elem_of_cons. repeat split; try discriminate. apply not_elem_of_nil. }
  assert (Hne : b' <> "") by (intros ->; discriminate).
  destruct (basename_keeps_tail a' b' Hfree Hne) as [p ->].
  intros H. apply (f_equal String.length) in H. rewrite string_app_length in H.
  destruct b'; [done | simpl in H; lia].
Qed.

(** *** Uploading a document *)

Lemma acceptable_upload_dec (file_name : option string) (content : list Z) :
  {acceptable_upload file_name content} + {~ acceptable_upload file_name content}.
Proof.
  unfold acceptable_upload.
  destruct (names_file file_name) as [name|]; [| right; by intros (? & ? & _)].
  destruct (endswith (lower name) ".pdf") eqn:He;
    [| right; intros (? & [= <-] & ? & _); congruence].
  destruct (Z_le_dec (Z.of_nat (length content)) MAX_SIZE) as [Hle | Hgt].
  - left. by exists name.
  - right. by intros (? & _ & _ & ?).
Qed.

(** The ways upload_pdf can end. *)
Lemma upload_pdf_cases
    (env : Env) (file_name : option string) (content : list Z) (st : State) :
  (~ acceptable_upload file_name content /\
   exists detail, upload_pdf env file_name content st = (HTTPException 400 detail, st))
  \/ (exists name,
        names_file file_name = Some name
        /\ endswith (lower name) ".pdf" = true
        /\ (Z.of_nat (length content) <= MAX_SIZE)%Z
        /\ ((exists e,
               os_open_error env (TMP_FOLDER +:+ "/" +:+ basename name) = Some e
               /\ upload_pdf env file_name content st =
                    (HTTPException 500 ("Error processing PDF: " +:+ str_exn e), st))
            \/ (exists e,
                  os_open_error env (TMP_FOLDER +:+ "/" +:+ basename name) = None
                  /\ (os_write_error env (TMP_FOLDER +:+ "/" +:+ basename name) =
                        Some e
                      \/ faiss_from_pdf env content = Raise e)
                  /\ upload_pdf env file_name content st =
                       (HTTPException 500 ("Error processing PDF: " +:+ str_exn e),
                        set_disk (fun d => d ∪ {[TMP_FOLDER +:+ "/" +:+ basename name]})
                                 st))
            \/ (exists vector_store,
                  (os_open_error env (TMP_FOLDER +:+ "/" +:+ basename name) = None
                   /\ os_write_error env (TMP_FOLDER +:+ "/" +:+ basename name) = None)
                  /\ faiss_from_pdf env content = Ok vector_store
                  /\ upload_pdf env file_name content st =
                       (Http200 {| up_success := true;
                                   up_message := "PDF '" +:+ basename name +:+
                                                 "' uploaded and processed.";
                                   up_filename := basename name |},
                        uploaded name content vector_store st)))).
Proof.
  unfold upload_pdf, acceptable_upload.
  destruct (names_file file_name) as [name|] eqn:Hn.
  2:{ left. split; [by intros (? & ? & _) | by eexists]. }
  destruct (endswith (lower name) ".pdf") eqn:He; simpl.
  2:{ left. split; [intros (? & [= <-] & ? & _); congruence | by eexists]. }
  destruct (MAX_SIZE <? Z.of_nat (length content))%Z eqn:Hsz.
  { left. apply Z.ltb_lt in Hsz. split; [intros (? & _ & _ & ?); lia | by eexists]. }
  apply Z.ltb_ge in Hsz. right. exists name. do 3 (split; [done |]).
  unfold upload_pdf_body, bind, lift, ret.
  destruct (os_open_error env _) as [e|] eqn:Ho; [left; by exists e |].
  destruct (os_write_error env _) as [e|] eqn:Hw.
  { right. left. exists e. split; [done |]. split; [by left | done]. }
  destruct (faiss_from_pdf env content) as [vs|e] eqn:Hf.
  - right. right. by exists vs.
  - right. left. exists e. split; [done |]. split; [by right | done].
Qed.

(** X10: upload_pdf answers 400 exactly for the uploads its two checks turn
    away (no file name, a name that does not end in ".pdf" in any letter
    case, or more than 10 MiB), and then nothing at all has changed: nothing
    was written, indexed or registered. *)
Theorem upload_pdf_rejection
    (env : Env) (file_name : option string) (content : list Z) (st : State) :
  (~ acceptable_upload file_name content ->
   exists detail,
     upload_pdf env file_name content st = (HTTPException 400 detail, st))
  /\ (forall detail st',
        upload_pdf env file_name content st = (HTTPException 400 detail, st') ->
        ~ acceptable_upload file_name content /\ st' = st).
Proof.
  destruct (upload_pdf_cases env file_name content st)
    as [(Hno & detail & H) |
        (name & Hn & He & Hsz & [(e & _ & H) | [(e & _ & _ & H) | (vs & _ & _ & H)]])].
  - split; [by exists detail |]. intros d st'. rewrite H. by intros [= _ <-].
  - split; [intros Hno; destruct Hno; by exists name |].
    intros d st'. rewrite H. discriminate.
  - split; [intros Hno; destruct Hno; by exists name |].
    intros d st'. rewrite H. discriminate.
  - split; [intros Hno; destruct Hno; by exists name |].
    intros d st'. rewrite H. discriminate.
Qed.

Lemma upload_pdf_rejection_witness :
  ~ acceptable_upload (Some "notes.txt") [37; 80]%Z
  /\ upload_pdf env_ok (Some "notes.txt") [37; 80]%Z state_with_document =
       (HTTPException 400 "Only PDF files are allowed.", state_with_document).
Proof.
  assert (H : upload_pdf env_ok (Some "notes.txt") [37; 80]%Z state_with_document =
              (HTTPException 400 "Only PDF files are allowed.", state_with_document))
    by reflexivity.
  split; [| exact H].
  exact (proj1 (proj2 (upload_pdf_rejection env_ok (Some "notes.txt") [37; 80]%Z
                         state_with_document) _ _ H)).
Defined.

(** X11: an upload answered with a body was acceptable, and is registered
    under the base name of the file name, which is not empty and holds no
    slash: the file is on disk at TMP_FOLDER/name, the index built from the
    content replaces any index that name had, the record holds that path and
    the content's length, and no other document and no session is touched. *)
Theorem upload_pdf_success
    (env : Env) (file_name : option string) (content : list Z) (st st' : State)
    (r : UploadResponse) :
  upload_pdf env file_name content st = (Http200 r, st') ->
  acceptable_upload file_name content
  /\ up_success r = true
  /\ up_filename r <> "" /\ slash_free (up_filename r)
  /\ (exists name, names_file file_name = Some name /\ up_filename r = basename name)
  /\ (exists vector_store,
        faiss_from_pdf env content = Ok vector_store
        /\ vector_stores st' !! up_filename r = Some vector_store)
  /\ uploaded_files st' !! up_filename r =
       Some {| path := TMP_FOLDER +:+ "/" +:+ up_filename r;
               file_size := Z.of_nat (length content) |}
  /\ disk st' = disk st ∪ {[TMP_FOLDER +:+ "/" +:+ up_filename r]}
  /\ (forall f, f <> up_filename r ->
        uploaded_files st' !! f = uploaded_files st !! f
        /\ vector_stores st' !! f = vector_stores st !! f)
  /\ chat_sessions st' = chat_sessions st.
Proof.
  intros H.
  destruct (upload_pdf_cases env file_name content st)
    as [(Hno & detail & H') |
        (name & Hn & He & Hsz &
           [(e & _ & H') | [(e & _ & _ & H') | (vs & _ & Hf & H')]])];
    rewrite H' in H; try discriminate.
  injection H as <- <-. simpl.
  destruct (pdf_basename name He) as [Hne Hfree].
  split; [by exists name |]. split; [reflexivity |].
  split; [exact Hne |]. split; [exact Hfree |].
  split; [by exists name |].
  split; [exists vs; split; [exact Hf | apply lookup_insert_eq] |].
  split; [apply lookup_insert_eq |]. split; [reflexivity |].
  split; [| reflexivity].
  intros f Hf'. split; by apply lookup_insert_ne.
Qed.

Lemma upload_pdf_success_witness :
  upload_pdf env_ok (Some "docs/Report.PDF") [37; 80; 68; 70]%Z empty_state =
    (Http200 {| up_success := true;
                up_message := "PDF 'Report.PDF' uploaded and processed.";
                up_filename := "Report.PDF" |},
     uploaded "docs/Report.PDF" [37; 80; 68; 70]%Z
       {| chunks := [ {| page_content := "chunk" |} ] |} empty_state)
  /\ acceptable_upload (Some "docs/Report.PDF") [37; 80; 68; 70]%Z.
Proof.
  assert (H : upload_pdf env_ok (Some "docs/Report.PDF") [37; 80; 68; 70]%Z
                empty_state =
              (Http200 {| up_success := true;
                          up_message := "PDF 'Report.PDF' uploaded and processed.";
                          up_filename := "Report.PDF" |},
               uploaded "docs/Report.PDF" [37; 80; 68; 70]%Z
                 {| chunks := [ {| page_content := "chunk" |} ] |} empty_state))
    by reflexivity.
  split; [exact H |].
  exact (proj1 (upload_pdf_success _ _ _ _ _ _ H)).
Defined.

(** X12: an upload that fails leaves both registries and all sessions as
    they were, whatever the failure, so a failed re-upload keeps answering
    from the old index.  The disk is as it was when the upload was refused
    (400) or the file could not be opened; once open(path, "wb") has gone
    through, a failing write or a failing indexing (500) leaves exactly the
    target file TMP_FOLDER/name behind. *)
Theorem upload_pdf_failure
    (env : Env) (file_name : option string) (content : list Z) (st st' : State)
    (status_code : Z) (detail : string) :
  upload_pdf env file_name content st = (HTTPException status_code detail, st') ->
  uploaded_files st' = uploaded_files st
  /\ vector_stores st' = vector_stores st
  /\ chat_sessions st' = chat_sessions st
  /\ ((disk st' = disk st
       /\ (status_code = 400%Z
           \/ exists name, names_file file_name = Some name
                /\ is_Some (os_open_error env
                              (TMP_FOLDER +:+ "/" +:+ basename name))))
      \/ (exists name e,
            names_file file_name = Some name
            /\ status_code = 500%Z
            /\ detail = "Error processing PDF: " +:+ str_exn e
            /\ os_open_error env (TMP_FOLDER +:+ "/" +:+ basename name) = None
            /\ (os_write_error env (TMP_FOLDER +:+ "/" +:+ basename name) = Some e
                \/ faiss_from_pdf env content = Raise e)
            /\ disk st' = disk st ∪ {[TMP_FOLDER +:+ "/" +:+ basename name]})).
Proof.
  intros H.
  destruct (upload_pdf_cases env file_name content st)
    as [(Hno & d & H') |
        (name & Hn & He & Hsz &
           [(e & Ho & H') | [(e & Ho & Hcause & H') | (vs & _ & Hf & H')]])];
    rewrite H' in H; try discriminate; injection H as <- <- <-.
  - do 3 (split; [reflexivity |]). left. split; [reflexivity | by left].
  - do 3 (split; [reflexivity |]). left. split; [reflexivity |].
    right. exists name. split; [done | by eexists].
  - do 3 (split; [reflexivity |]). right. by exists name, e.
Qed.

Lemma upload_pdf_failure_witness :
  upload_pdf env_indexing_fails (Some "a.pdf") [37; 80]%Z state_with_document =
    (HTTPException 500 "Error processing PDF: cannot open broken document",
     set_disk (fun d => d ∪ {["./tmp_uploads/a.pdf"]}) state_with_document)
  /\ vector_stores
       (set_disk (fun d => d ∪ {["./tmp_uploads/a.pdf"]}) state_with_document) =
     vector_stores state_with_document.
Proof.
  assert (H : upload_pdf env_indexing_fails (Some "a.pdf") [37; 80]%Z
                state_with_document =
              (HTTPException 500 "Error processing PDF: cannot open broken document",
               set_disk (fun d => d ∪ {["./tmp_uploads/a.pdf"]}) state_with_document))
    by reflexivity.
  split; [exact H |].
  exact (proj1 (proj2 (upload_pdf_failure _ _ _ _ _ _ _ H))).
Defined.

Lemma upload_pdf_write_failure_leaves_file :
  upload_pdf env_disk_full (Some "b.pdf") [37; 80]%Z state_with_document =
    (HTTPException 500 "Error processing PDF: No space left on device",
     set_disk (fun d => d ∪ {["./tmp_uploads/b.pdf"]}) state_with_document).
Proof. reflexivity. Qed.

(** *** Deleting a document, in full *)

(** X13: delete_file always drops the filename from both registries and
    touches no other document and no session.  It reports success exactly
    when the file was registered, its path exists and os.remove goes through;
    only then does the path leave the disk.  In every other case the disk is
    as before and the answer carries a message. *)
Theorem delete_file_outcome (env : Env) (f : string) (st : State) :
  uploaded_files (snd (delete_file env f st)) = delete f (uploaded_files st)
  /\ vector_stores (snd (delete_file env f st)) = delete f (vector_stores st)
  /\ chat_sessions (snd (delete_file env f st)) = chat_sessions st
  /\ (del_success (fst (delete_file env f st)) = true <->
      exists info, uploaded_files st !! f = Some info
        /\ path info ∈ disk st
        /\ os_remove_error env (path info) = None)
  /\ (forall info, uploaded_files st !! f = Some info ->
        del_success (fst (delete_file env f st)) = true ->
        disk (snd (delete_file env f st)) = disk st ∖ {[path info]}
        /\ del_message (fst (delete_file env f st)) = None)
  /\ (del_success (fst (delete_file env f st)) = false ->
      disk (snd (delete_file env f st)) = disk st
      /\ is_Some (del_message (fst (delete_file env f st)))).
Proof.
  unfold delete_file.
  destruct (uploaded_files st !! f) as [info|] eqn:Hu.
  - simpl. case_bool_decide as Hd.
    + destruct (os_remove_error env (path info)) as [e|] eqn:Hr; simpl.
      * do 3 (split; [reflexivity |]). split; [| split].
        -- split; [discriminate |]. intros (i & [= <-] & _ & ?). congruence.
        -- intros i _ ?. discriminate.
        -- intros _. split; [reflexivity | by eexists].
      * do 3 (split; [reflexivity |]). split; [| split].
        -- split; [intros _; by exists info | reflexivity].
        -- by intros i [= <-] _.
        -- discriminate.
    + simpl. do 3 (split; [reflexivity |]). split; [| split].
      * split; [discriminate |]. intros (i & [= <-] & ? & _). done.
      * intros i _ ?. discriminate.
      * intros _. split; [reflexivity | by eexists].
  - simpl. do 3 (split; [reflexivity |]). split; [| split].
    + split; [discriminate |]. intros (i & ? & _). discriminate.
    + intros i ?. discriminate.
    + intros _. split; [reflexivity | by eexists].
Qed.

Lemma delete_file_outcome_witness :
  uploaded_files state_with_document !! "a.pdf" =
    Some {| path := "./tmp_uploads/a.pdf"; file_size := 42 |}
  /\ del_success (fst (delete_file env_ok "a.pdf" state_with_document)) = true
  /\ disk (snd (delete_file env_ok "a.pdf" state_with_document)) =
       disk state_with_document ∖ {["./tmp_uploads/a.pdf"]}
  /\ del_success (fst (delete_file env_remove_refused "a.pdf" state_with_document)) =
       false
  /\ disk (snd (delete_file env_remove_refused "a.pdf" state_with_document)) =
       disk state_with_document.
Proof.
  assert (Hu : uploaded_files state_with_document !! "a.pdf" =
               Some {| path := "./tmp_uploads/a.pdf"; file_size := 42 |})
    by reflexivity.
  assert (Hs : del_success (fst (delete_file env_ok "a.pdf" state_with_document)) =
               true) by reflexivity.
  assert (Hf : del_success
                 (fst (delete_file env_remove_refused "a.pdf" state_with_document)) =
               false) by reflexivity.
  destruct (delete_file_outcome env_ok "a.pdf" state_with_document)
    as (_ & _ & _ & _ & Hok & _).
  destruct (delete_file_outcome env_remove_refused "a.pdf" state_with_document)
    as (_ & _ & _ & _ & _ & Hko).
  split; [exact Hu |]. split; [exact Hs |].
  split; [exact (proj1 (Hok _ Hu Hs)) |].
  split; [exact Hf | exact (proj1 (Hko Hf))].
Defined.

(** X14: upload then delete is a round trip.  After an upload answered with
    a body, deleting the returned filename succeeds as soon as os.remove does,
    and leaves the registries without that filename and the disk without its
    file; if the name was new and no such file was there before, the state is
    exactly the one before the upload. *)
Theorem upload_then_delete
    (env : Env) (file_name : option string) (content : list Z) (st st1 : State)
    (r : UploadResponse) :
  upload_pdf env file_name content st = (Http200 r, st1) ->
  os_remove_error env (TMP_FOLDER +:+ "/" +:+ up_filename r) = None ->
  exists st2,
    delete_file env (up_filename r) st1 =
      ({| del_success := true; del_message := None |}, st2)
    /\ uploaded_files st2 = delete (up_filename r) (uploaded_files st)
    /\ vector_stores st2 = delete (up_filename r) (vector_stores st)
    /\ chat_sessions st2 = chat_sessions st
    /\ disk st2 = disk st ∖ {[TMP_FOLDER +:+ "/" +:+ up_filename r]}
    /\ (uploaded_files st !! up_filename r = None ->
        vector_stores st !! up_filename r = None ->
        TMP_FOLDER +:+ "/" +:+ up_filename r ∉ disk st ->
        st2 = st).
Proof.
  intros H Hrm.
  destruct (upload_pdf_cases env file_name content st)
    as [(Hno & detail & H') |
        (name & Hn & He & Hsz &
           [(e & _ & H') | [(e & _ & _ & H') | (vs & _ & Hf & H')]])];
    rewrite H' in H; try discriminate.
  injection H as <- <-. simpl in *.
  unfold delete_file, uploaded; simpl.
  rewrite lookup_insert_eq; simpl.
  rewrite bool_decide_eq_true_2
    by (apply elem_of_union; right; by apply elem_of_singleton).
  rewrite Hrm. eexists. split; [reflexivity |]. simpl.
  split; [by rewrite delete_insert_eq |].
  split; [by rewrite delete_insert_eq |].
  split; [reflexivity |].
  assert (Hdisk : forall (d : gset string) (p : string),
                    (d ∪ {[p]}) ∖ {[p]} = d ∖ {[p]}).
  { intros d p. apply set_eq. intros x.
    rewrite !elem_of_difference, elem_of_union, elem_of_singleton. tauto. }
  split; [apply Hdisk |].
  intros Hu Hv Hd. destruct st as [u v c d]; simpl in *.
  unfold set_disk, set_vector_stores, set_uploaded_files; simpl.
  rewrite !delete_insert_eq, (delete_id _ _ Hu), (delete_id _ _ Hv), Hdisk.
  f_equal. apply difference_disjoint_L. by apply disjoint_singleton_r.
Qed.

Lemma upload_then_delete_witness :
  upload_pdf env_ok (Some "docs/Report.PDF") [37; 80; 68; 70]%Z empty_state =
    (Http200 {| up_success := true;
                up_message := "PDF 'Report.PDF' uploaded and processed.";
                up_filename := "Report.PDF" |},
     uploaded "docs/Report.PDF" [37; 80; 68; 70]%Z
       {| chunks := [ {| page_content := "chunk" |} ] |} empty_state)
  /\ os_remove_error env_ok "./tmp_uploads/Report.PDF" = None
  /\ exists st2,
       delete_file env_ok "Report.PDF"
         (uploaded "docs/Report.PDF" [37; 80; 68; 70]%Z
            {| chunks := [ {| page_content := "chunk" |} ] |} empty_state) =
         ({| del_success := true; del_message := None |}, st2)
       /\ disk st2 = disk empty_state ∖ {["./tmp_uploads/Report.PDF"]}.
Proof.
  assert (H : upload_pdf env_ok (Some "docs/Report.PDF") [37; 80; 68; 70]%Z
                empty_state =
              (Http200 {| up_success := true;
                          up_message := "PDF 'Report.PDF' uploaded and processed.";
                          up_filename := "Report.PDF" |},
               uploaded "docs/Report.PDF" [37; 80; 68; 70]%Z
                 {| chunks := [ {| page_content := "chunk" |} ] |} empty_state))
    by reflexivity.
  assert (Hrm : os_remove_error env_ok "./tmp_uploads/Report.PDF" = None)
    by reflexivity.
  split; [exact H | split; [exact Hrm |]].
  destruct (upload_then_delete env_ok _ _ _ _ _ H Hrm)
    as (st2 & Hd & _ & _ & _ & Hdisk & _).
  exists st2. split; [exact Hd | exact Hdisk].
Defined.

(** *** The document side stays consistent *)

Lemma tmp_path_not_folder (f : string) : TMP_FOLDER +:+ "/" +:+ f <> TMP_FOLDER.
Proof. intros H. cbv in H. discriminate H. Qed.

Lemma tmp_path_below (f : string) : below_tmp_folder (TMP_FOLDER +:+ "/" +:+ f) = true.
Proof. destruct f; reflexivity. Qed.

Lemma upload_pdf_consistent
    (env : Env) (file_name : option string) (content : list Z) (st : State) :
  documents_consistent st ->
  documents_consistent (snd (upload_pdf env file_name content st)).
Proof.
  intros (Hdom & Hpaths & Htmp).
  destruct (upload_pdf_cases env file_name content st)
    as [(Hno & detail & H) |
        (name & Hn & He & Hsz &
           [(e & _ & H) | [(e & _ & _ & H) | (vs & _ & Hf & H)]])];
    rewrite H; simpl.
  - done.
  - done.
  - split; [exact Hdom |]. split; [exact Hpaths |].
    apply elem_of_union. by left.
  - split; [| split].
    + simpl. by rewrite !dom_insert_L, Hdom.
    + intros f info Hl. simpl in Hl.
      destruct (decide (basename name = f)) as [<- | Hne].
      * rewrite lookup_insert_eq in Hl. injection Hl as <-.
        split; [apply basename_slash_free | reflexivity].
      * rewrite lookup_insert_ne in Hl by done. by apply Hpaths.
    + simpl. apply elem_of_union. by left.
Qed.

Lemma delete_file_consistent (env : Env) (f : string) (st : State) :
  documents_consistent st ->
  documents_consistent (snd (delete_file env f st)).
Proof.
  intros (Hdom & Hpaths & Htmp).
  destruct (delete_file_outcome env f st) as (Hu & Hv & _ & _ & Hok & Hko).
  split; [| split].
  - by rewrite Hu, Hv, !dom_delete_L, Hdom.
  - intros f' info. rewrite Hu. intros [_ Hl]%lookup_delete_Some.
    by apply Hpaths.
  - destruct (del_success (fst (delete_file env f st))) eqn:Hs.
    + destruct (uploaded_files st !! f) as [info|] eqn:Hl.
      * destruct (Hok info eq_refl eq_refl) as [-> _].
        apply elem_of_difference. split; [exact Htmp |].
        destruct (Hpaths f info Hl) as [_ ->].
        intros Hin%elem_of_singleton. symmetry in Hin.
        by apply tmp_path_not_folder in Hin.
      * exfalso. unfold delete_file in Hs. rewrite Hl in Hs. discriminate.
    + destruct (Hko eq_refl) as [-> _]. exact Htmp.
Qed.

Lemma serve_consistent (env : Env) (call : ApiCall) (st : State) :
  documents_consistent st -> documents_consistent (serve env call st).
Proof.
  intros Hinv.
  destruct call as [| | file_name content | f | now request | now request
                    | hsid | csid | qrequest]; simpl; try exact Hinv.
  - by apply upload_pdf_consistent.
  - by apply delete_file_consistent.
  - assert (Hframe : uploaded_files (snd (chat_message env now request st)) =
                       uploaded_files st
                     /\ vector_stores (snd (chat_message env now request st)) =
                       vector_stores st
                     /\ disk (snd (chat_message env now request st)) = disk st).
    { destruct (chat_message_step env now request st) as [Hn | [a Hrec]].
      - by destruct (nothing_recorded_frame _ _ _ Hn) as (_ & ? & ? & ?).
      - by destruct Hrec as (_ & _ & ? & ? & ?). }
    destruct Hframe as (Hu & Hv & Hd). destruct Hinv as (Hdom & Hpaths & Htmp).
    unfold documents_consistent, uploads_in_tmp_folder. by rewrite Hu, Hv, Hd.
  - assert (Hframe : uploaded_files (snd (generate_stream env now request st)) =
                       uploaded_files st
                     /\ vector_stores (snd (generate_stream env now request st)) =
                       vector_stores st
                     /\ disk (snd (generate_stream env now request st)) = disk st).
    { destruct (generate_stream_step env now request st) as [Hn | [a Hrec]].
      - by destruct (nothing_recorded_frame _ _ _ Hn) as (_ & ? & ? & ?).
      - by destruct Hrec as (_ & _ & ? & ? & ?). }
    destruct Hframe as (Hu & Hv & Hd). destruct Hinv as (Hdom & Hpaths & Htmp).
    unfold documents_consistent, uploads_in_tmp_folder. by rewrite Hu, Hv, Hd.
  - by rewrite ask_question_state.
Qed.

Lemma serve_all_consistent (env : Env) (calls : list ApiCall) (st : State) :
  documents_consistent st -> documents_consistent (serve_all env calls st).
Proof.
  revert st. unfold serve_all.
  induction calls as [|call calls IH]; intros st H; simpl; [exact H |].
  apply IH. by apply serve_consistent.
Qed.

Lemma startup_consistent (env : Env) (fs : gset string) (st0 : State) :
  startup env fs = Ok st0 -> documents_consistent st0.
Proof.
  intros [= <-]. split; [| split]; simpl.
  - by rewrite !dom_empty_L.
  - intros f info Hl. simpl in Hl. by rewrite lookup_empty in Hl.
  - apply elem_of_union. right. by apply elem_of_singleton.
Qed.

(** X15: from startup on, whatever requests are served, a filename has a
    record in uploaded_files exactly when it has an index in vector_stores:
    no request leaves a document half registered. *)
Theorem registries_agree
    (env : Env) (fs : gset string) (calls : list ApiCall) (st0 : State) (f : string) :
  startup env fs = Ok st0 ->
  (is_Some (uploaded_files (serve_all env calls st0) !! f) <->
   is_Some (vector_stores (serve_all env calls st0) !! f)).
Proof.
  intros Hstart.
  destruct (serve_all_consistent env calls st0 (startup_consistent _ _ _ Hstart))
    as (Hdom & _ & _).
  by rewrite <- !elem_of_dom, Hdom.
Qed.

Lemma registries_agree_witness :
  startup env_ok ∅ = Ok empty_state
  /\ (is_Some (uploaded_files
                 (serve_all env_ok
                    [CallUpload (Some "a.pdf") [37; 80]%Z; CallDelete "b.pdf"]
                    empty_state) !! "a.pdf") <->
      is_Some (vector_stores
                 (serve_all env_ok
                    [CallUpload (Some "a.pdf") [37; 80]%Z; CallDelete "b.pdf"]
                    empty_state) !! "a.pdf")).
Proof.
  assert (H0 : startup env_ok ∅ = Ok empty_state) by reflexivity.
  split; [exact H0 |].
  exact (registries_agree env_ok ∅
           [CallUpload (Some "a.pdf") [37; 80]%Z; CallDelete "b.pdf"]
           empty_state "a.pdf" H0).
Defined.

(** X16: from startup on, every registered upload is keyed by a name without
    a slash and recorded at the path TMP_FOLDER/name: whatever file name a
    client sends, no record ever points outside the upload folder. *)
Theorem uploads_stay_in_tmp_folder
    (env : Env) (fs : gset string) (calls : list ApiCall) (st0 : State)
    (f : string) (info : FileInfo) :
  startup env fs = Ok st0 ->
  uploaded_files (serve_all env calls st0) !! f = Some info ->
  slash_free f
  /\ path info = TMP_FOLDER +:+ "/" +:+ f
  /\ below_tmp_folder (path info) = true.
Proof.
  intros Hstart Hl.
  destruct (serve_all_consistent env calls st0 (startup_consistent _ _ _ Hstart))
    as (_ & Hpaths & _).
  destruct (Hpaths f info Hl) as [Hfree Hp].
  split; [exact Hfree |]. split; [exact Hp |]. rewrite Hp. apply tmp_path_below.
Qed.

Lemma uploads_stay_in_tmp_folder_witness :
  startup env_ok ∅ = Ok empty_state
  /\ uploaded_files
       (serve_all env_ok [CallUpload (Some "../../etc/x.pdf") [37; 80]%Z]
          empty_state) !! "x.pdf" =
     Some {| path := "./tmp_uploads/x.pdf"; file_size := 2 |}
  /\ slash_free "x.pdf".
Proof.
  assert (H0 : startup env_ok ∅ = Ok empty_state) by reflexivity.
  assert (Hl : uploaded_files
                 (serve_all env_ok [CallUpload (Some "../../etc/x.pdf") [37; 80]%Z]
                    empty_state) !! "x.pdf" =
               Some {| path := "./tmp_uploads/x.pdf"; file_size := 2 |})
    by reflexivity.
  split; [exact H0 | split; [exact Hl |]].
  exact (proj1 (uploads_stay_in_tmp_folder env_ok ∅ _ empty_state "x.pdf" _ H0 Hl)).
Defined.

(** *** Shutdown *)

(** X17: cleanup_tmp_folder, run after any requests since startup, takes the
    upload folder and the file of every registered upload off the disk,
    leaves every path outside the folder where it was, and touches neither
    the registries nor the sessions; running it again changes nothing. *)
Theorem cleanup_tmp_folder_after_run
    (env : Env) (fs : gset string) (calls : list ApiCall) (st0 : State) :
  startup env fs = Ok st0 ->
  (TMP_FOLDER ∉ disk (cleanup_tmp_folder (serve_all env calls st0)))
  /\ (forall f info,
        uploaded_files (serve_all env calls st0) !! f = Some info ->
        path info ∉ disk (cleanup_tmp_folder (serve_all env calls st0)))
  /\ (forall p, p <> TMP_FOLDER -> below_tmp_folder p = false ->
        (p ∈ disk (cleanup_tmp_folder (serve_all env calls st0)) <->
         p ∈ disk (serve_all env calls st0)))
  /\ uploaded_files (cleanup_tmp_folder (serve_all env calls st0)) =
       uploaded_files (serve_all env calls st0)
  /\ vector_stores (cleanup_tmp_folder (serve_all env calls st0)) =
       vector_stores (serve_all env calls st0)
  /\ chat_sessions (cleanup_tmp_folder (serve_all env calls st0)) =
       chat_sessions (serve_all env calls st0)
  /\ cleanup_tmp_folder (cleanup_tmp_folder (serve_all env calls st0)) =
       cleanup_tmp_folder (serve_all env calls st0).
Proof.
  intros Hstart.
  destruct (serve_all_consistent env calls st0 (startup_consistent _ _ _ Hstart))
    as (_ & Hpaths & Htmp).
  set (st := serve_all env calls st0) in *.
  assert (Hc : cleanup_tmp_folder st =
               set_disk (filter (fun p => p <> TMP_FOLDER /\
                                          below_tmp_folder p = false)) st).
  { unfold cleanup_tmp_folder. by rewrite bool_decide_eq_true_2. }
  assert (Hgone : TMP_FOLDER ∉ disk (cleanup_tmp_folder st)).
  { rewrite Hc. simpl. rewrite elem_of_filter. by intros [[? _] _]. }
  split; [exact Hgone |]. split; [| split].
  - intros f info Hl. rewrite Hc. simpl. rewrite elem_of_filter.
    destruct (Hpaths f info Hl) as [_ ->]. intros [[_ Hb] _].
    by rewrite tmp_path_below in Hb.
  - intros p Hp Hb. rewrite Hc. simpl. rewrite elem_of_filter. tauto.
  - rewrite Hc. do 3 (split; [reflexivity |]). rewrite <- Hc.
    unfold cleanup_tmp_folder at 1. by rewrite bool_decide_eq_false_2.
Qed.

Lemma cleanup_tmp_folder_after_run_witness :
  startup env_ok ∅ = Ok empty_state
  /\ TMP_FOLDER ∉
       disk (cleanup_tmp_folder
               (serve_all env_ok [CallUpload (Some "a.pdf") [37; 80]%Z] empty_state)).
Proof.
  assert (H0 : startup env_ok ∅ = Ok empty_state) by reflexivity.
  split; [exact H0 |].
  exact (proj1 (cleanup_tmp_folder_after_run env_ok ∅
                  [CallUpload (Some "a.pdf") [37; 80]%Z] empty_state H0)).
Defined.

(** *** One-shot questions *)

(** X18: ask_question never changes the state and never looks at the
    sessions.  It answers 400 exactly when the filename has no index (an
    empty filename included); otherwise it answers 500 when the configuration
    is incomplete, is not a dict, or the chain raises, and else returns the
    chain's answer for the top 5 chunks of that document's index, with the
    page contents of the chain's source documents. *)
Theorem ask_question_outcome (env : Env) (request : QuestionRequest) (st : State) :
  snd (ask_question env request st) = st
  /\ (forall sessions,
        fst (ask_question env request (set_chat_sessions (fun _ => sessions) st)) =
        fst (ask_question env request st))
  /\ (vector_stores st !! q_filename request = None <->
      fst (ask_question env request st) =
        HTTPException 400 "PDF not found. Please upload first.")
  /\ (forall store e,
        vector_stores st !! q_filename request = Some store ->
        load_config env = Raise e ->
        fst (ask_question env request st) =
          HTTPException 500 ("Error processing question: " +:+ str_exn e))
  /\ (forall r,
        fst (ask_question env request st) = Http200 r ->
        exists store config docs,
          vector_stores st !! q_filename request = Some store
          /\ load_config env = Ok (ConfigObject config)
          /\ qa_chain_invoke env
               {| secret_key := config_get config "API_KEY";
                  non_stream_url := config_get config "AI_Agent_URL";
                  stream_url := config_get config "AI_Agent_Stream_URL" |}
               store 5 (question request) = Ok (answer r, docs)
          /\ source_chunks r = map page_content docs)
  /\ (forall store config e,
        vector_stores st !! q_filename request = Some store ->
        load_config env = Ok config ->
        make_llm config = Raise e ->
        fst (ask_question env request st) =
          HTTPException 500 ("Error processing question: " +:+ str_exn e)).
Proof.
  split; [apply ask_question_state |].
  split.
  { intros sessions.
    unfold ask_question, ask_question_body, bind, lift, get_state, ret. simpl.
    destruct (vector_stores st !! q_filename request) as [store|] eqn:Hv;
      [| reflexivity].
    destruct (load_config env) as [config|e]; [| reflexivity].
    destruct (make_llm config) as [client|e]; [| reflexivity].
    by destruct (qa_chain_invoke env _ store 5 _) as [[? ?]|]. }
  unfold ask_question, ask_question_body, bind, lift, get_state, ret.
  destruct (vector_stores st !! q_filename request) as [store|] eqn:Hv.
  - split; [| split; [| split]].
    + split; [discriminate |].
      destruct (load_config env) as [config|e]; [| discriminate].
      destruct (make_llm config) as [client|e]; [| discriminate].
      by destruct (qa_chain_invoke env _ store 5 _) as [[? ?]|].
    + intros store' e _ Hc. by rewrite Hc.
    + intros r. destruct (load_config env) as [config|e]; [| discriminate].
      destruct config as [c | items | text]; simpl; try discriminate.
      destruct (qa_chain_invoke env _ store 5 _) as [[ans docs]|e] eqn:Hq;
        [| discriminate].
      simpl. intros [= <-]. by exists store, c, docs.
    + intros store' config e _ Hc Hl. by rewrite Hc, Hl.
  - split; [done |]. split; [discriminate |]. split; [simpl; discriminate |].
    intros store' config e Hs. discriminate Hs.
Qed.

Lemma ask_question_outcome_witness :
  vector_stores state_with_document !! "a.pdf" =
    Some {| chunks := [ {| page_content := "first chunk" |};
                        {| page_content := "second chunk" |} ] |}
  /\ load_config env_unconfigured =
       Raise (FileNotFoundError
                "keys.txt not found. Please create it with your API configuration.")
  /\ fst (ask_question env_unconfigured
            {| question := "what?"; q_filename := "a.pdf" |} state_with_document) =
       HTTPException 500
         "Error processing question: keys.txt not found. Please create it with your API configuration."
  /\ fst (ask_question env_ok {| question := "what?"; q_filename := "a.pdf" |}
            state_with_document) =
       Http200 {| answer := "Hello";
                  source_chunks := ["first chunk"; "second chunk"] |}.
Proof.
  assert (Hv : vector_stores state_with_document !! "a.pdf" =
               Some {| chunks := [ {| page_content := "first chunk" |};
                                   {| page_content := "second chunk" |} ] |})
    by reflexivity.
  assert (Hc : load_config env_unconfigured =
               Raise (FileNotFoundError
                 "keys.txt not found. Please create it with your API configuration."))
    by reflexivity.
  split; [exact Hv | split; [exact Hc | split; [| reflexivity]]].
  destruct (ask_question_outcome env_unconfigured
              {| question := "what?"; q_filename := "a.pdf" |} state_with_document)
    as (_ & _ & _ & H500 & _).
  exact (H500 _ _ Hv Hc).
Defined.

(** *** Health *)

(** X19: health_check never fails, and "healthy" is necessary for creating
    a session but not sufficient.  For an id without a session:
    get_or_create_session succeeds exactly when load_config returns a dict;
    when it succeeds, /health is "healthy"; when /health is "degraded", the
    call raises the very error whose text /health shows; but when keys.txt
    is a list or a str that passes load_config's check, /health is "healthy"
    while the call raises a TypeError and registers nothing.  The two counts
    are the sizes of uploaded_files and chat_sessions. *)
Theorem health_check_versus_session_creation
    (env : Env) (now : datetime) (sid : string) (st : State) :
  chat_sessions st !! sid = None ->
  ((exists s st', get_or_create_session env now sid st = (Ok s, st')) <->
   (exists config, load_config env = Ok (ConfigObject config)))
  /\ ((exists s st', get_or_create_session env now sid st = (Ok s, st')) ->
      health_check env st =
        {| status := "healthy";
           n_uploaded_files := size (uploaded_files st);
           active_sessions := size (chat_sessions st);
           ai_service_configured := true;
           health_error := None |})
  /\ (status (health_check env st) = "degraded" ->
      exists e,
        get_or_create_session env now sid st = (Raise e, st)
        /\ health_check env st =
             {| status := "degraded";
                n_uploaded_files := size (uploaded_files st);
                active_sessions := size (chat_sessions st);
                ai_service_configured := false;
                health_error := Some (str_exn e) |})
  /\ (forall config,
        load_config env = Ok config ->
        (forall c, config <> ConfigObject c) ->
        status (health_check env st) = "healthy"
        /\ exists msg, get_or_create_session env now sid st = (Raise (TypeError msg), st))
  /\ (status (health_check env st) = "healthy"
      \/ status (health_check env st) = "degraded").
Proof.
  intros Hs. unfold health_check, get_or_create_session. rewrite Hs.
  destruct (load_config env) as [config|e]; simpl.
  - split; [| split; [| split; [| split]]].
    + split.
      * intros (s & st' & H). destruct config as [c | items | text];
          [by exists c | discriminate H | discriminate H].
      * intros (c & [= ->]). simpl. by eexists _, _.
    + done.
    + discriminate.
    + intros config' [= <-] Hno. split; [reflexivity |].
      destruct config as [c | items | text]; [by destruct (Hno c) | |];
        simpl; by eexists.
    + by left.
  - split; [| split; [| split; [| split]]].
    + split; [by intros (? & ? & ?) | by intros (? & ?)].
    + by intros (? & ? & ?).
    + intros _. by exists e.
    + discriminate.
    + by right.
Qed.

Lemma health_check_versus_session_creation_witness :
  chat_sessions empty_state !! "s1" = None
  /\ load_config env_keys_array =
       Ok (ConfigArray [JStr "API_KEY"; JStr "AI_Agent_URL";
                        JStr "AI_Agent_Stream_URL"])
  /\ status (health_check env_keys_array empty_state) = "healthy"
  /\ get_or_create_session env_keys_array "2024-02-02T00:00:00" "s1" empty_state =
       (Raise (TypeError "list indices must be integers or slices, not str"),
        empty_state)
  /\ exists s st',
       get_or_create_session env_ok "2024-02-02T00:00:00" "s1" empty_state =
         (Ok s, st').
Proof.
  assert (Hs : chat_sessions empty_state !! "s1" = None) by reflexivity.
  assert (Hc : load_config env_keys_array =
               Ok (ConfigArray [JStr "API_KEY"; JStr "AI_Agent_URL";
                                JStr "AI_Agent_Stream_URL"])) by reflexivity.
  destruct (health_check_versus_session_creation
              env_keys_array "2024-02-02T00:00:00" "s1" empty_state Hs)
    as (_ & _ & _ & Hgap & _).
  destruct (Hgap _ Hc ltac:(discriminate)) as [Hh _].
  destruct (health_check_versus_session_creation
              env_ok "2024-02-02T00:00:00" "s1" empty_state Hs) as (Hiff & _).
  split; [exact Hs | split; [exact Hc | split; [exact Hh | split; [reflexivity |]]]].
  apply Hiff. by exists complete_config.
Defined.

(** *** What the model is asked *)

Lemma retrieve_context_inv
    (env : Env) (request : ChatMessageRequest) (st : State)
    (context : string) (sources : list string) :
  retrieve_context env request st = (Ok (context, sources), st) ->
  context = String.concat (newline +:+ newline) sources
  /\ (names_file (filename request) = None -> sources = [])
  /\ (forall f, names_file (filename request) = Some f ->
        exists store docs,
          vector_stores st !! f = Some store
          /\ get_relevant_documents env store 3 (message request) = Ok docs
          /\ sources = map page_content docs).
Proof.
  unfold retrieve_context.
  destruct (names_file (filename request)) as [f|].
  - unfold bind, get_state, lift, ret.
    destruct (vector_stores st !! f) as [store|] eqn:Hv; [| discriminate].
    destruct (get_relevant_documents env store 3 (message request)) as [docs|e] eqn:Hr;
      [| discriminate].
    intros [= <- <-]. split; [reflexivity |]. split; [discriminate |].
    intros f' [= <-]. by exists store, docs.
  - unfold ret. intros [= <- <-]. split; [reflexivity |]. split; [reflexivity |].
    discriminate.
Qed.

Lemma stream_prelude_spec
    (env : Env) (now : datetime) (request : ChatMessageRequest) (st st1 : State)
    (session : Session) (sources : list string) (prompt : string) :
  stream_prelude env now request st = (Ok (session, sources, prompt), st1) ->
  prompt = build_strict_prompt (String.concat (newline +:+ newline) sources)
             (history_of st (session_id request)) (message request)
  /\ (forall s, chat_sessions st !! session_id request = Some s -> session = s)
  /\ (names_file (filename request) = None -> sources = [])
  /\ (forall f, names_file (filename request) = Some f ->
        exists store docs,
          vector_stores st !! f = Some store
          /\ get_relevant_documents env store 3 (message request) = Ok docs
          /\ sources = map page_content docs).
Proof.
  intros Hpre. apply stream_prelude_inv in Hpre as (Hget & context & Hr & ->).
  destruct (get_or_create_session_lookup _ _ _ _ _ _ Hget) as (_ & Hm & _ & Hsame).
  destruct (retrieve_context_inv _ _ _ _ _ Hr) as (-> & Hnone & Hsome).
  pose proof (get_or_create_session_vector_stores env now (session_id request) st)
    as Hvs.
  rewrite Hget in Hvs; simpl in Hvs. rewrite Hvs in Hsome.
  by rewrite Hm.
Qed.

(** X20: an answer, in either mode, is the model's answer to the prompt
    that build_strict_prompt assembles from the user message, the session's
    history as it was before the request, and the page contents of the top 3
    chunks of the named document joined by blank lines; those page contents
    are the sources returned.  Without a filename the context is empty and
    the sources are the empty list.  An existing session answers through the
    model client it was created with. *)
Theorem chat_answers_assembled_prompt
    (env : Env) (now : datetime) (request : ChatMessageRequest) (st : State) :
  (forall r st',
     chat_message env now request st = (Http200 r, st') ->
     exists session sources,
       resp_sources r = Some sources
       /\ llm_invoke env (llm session)
            (build_strict_prompt (String.concat (newline +:+ newline) sources)
               (history_of st (session_id request)) (message request)) =
          Ok (resp_content r)
       /\ (forall s, chat_sessions st !! session_id request = Some s -> session = s)
       /\ (names_file (filename request) = None -> sources = [])
       /\ (forall f, names_file (filename request) = Some f ->
             exists store docs,
               vector_stores st !! f = Some store
               /\ get_relevant_documents env store 3 (message request) = Ok docs
               /\ sources = map page_content docs))
  /\ (forall events st' a sources,
        generate_stream env now request st = (events, st') ->
        final_event a sources (session_id request) ∈ events ->
        exists session fragments,
          llm_stream env (llm session)
            (build_strict_prompt (String.concat (newline +:+ newline) sources)
               (history_of st (session_id request)) (message request)) =
          (fragments, None)
          /\ a = String.concat "" fragments
          /\ (forall s, chat_sessions st !! session_id request = Some s -> session = s)
          /\ (names_file (filename request) = None -> sources = [])
          /\ (forall f, names_file (filename request) = Some f ->
                exists store docs,
                  vector_stores st !! f = Some store
                  /\ get_relevant_documents env store 3 (message request) = Ok docs
                  /\ sources = map page_content docs)).
Proof.
  split.
  - intros r st' H.
    destruct (chat_message_cases env now request st)
      as [(f & _ & _ & H') | [(e & H') |
          (session & sources & prompt & st1 & response & Hpre & Hi & H')]];
      rewrite H' in H; try discriminate.
    injection H as <- <-. simpl.
    destruct (stream_prelude_spec _ _ _ _ _ _ _ _ Hpre) as (-> & Hsame & Hnone & Hsome).
    by exists session, sources.
  - intros events st' a sources H Hin.
    destruct (generate_stream_cases env now request st)
      as (fragments & [(e & H') | (session & srcs & prompt & st1 & Hpre & Hs & H')]);
      rewrite H' in H; injection H as <- <-.
    + exfalso. apply elem_of_app in Hin as [Hin | Hin].
      * apply chunk_event_not_terminal in Hin as [Hin _].
        by destruct (Hin a sources (session_id request)).
      * apply elem_of_cons in Hin as [Hin | Hin]; [discriminate |].
        apply elem_of_cons in Hin as [Hin | Hin]; [discriminate |].
        by apply elem_of_nil in Hin.
    + assert (Heq : final_event a sources (session_id request) =
                    final_event (String.concat "" fragments) srcs
                      (session_id request)).
      { apply elem_of_app in Hin as [Hin | Hin].
        - apply chunk_event_not_terminal in Hin as [Hin _].
          by destruct (Hin a sources (session_id request)).
        - apply elem_of_cons in Hin as [Hin | Hin]; [exact Hin |].
          apply elem_of_cons in Hin as [Hin | Hin]; [discriminate |].
          by apply elem_of_nil in Hin. }
      assert (Ha : a = String.concat "" fragments) by (by injection Heq).
      assert (Hsrc : map JStr sources = map JStr srcs) by (by injection Heq).
      assert (Hsources : sources = srcs).
      { clear -Hsrc. revert srcs Hsrc.
        induction sources as [|x l IH]; intros [|y k] Hsrc; simpl in Hsrc;
          try discriminate; [reflexivity |].
        injection Hsrc as -> Hsrc. f_equal. by apply IH. }
      subst srcs.
      destruct (stream_prelude_spec _ _ _ _ _ _ _ _ Hpre)
        as (-> & Hsame & Hnone & Hsome).
      by exists session, fragments.
Qed.

Lemma chat_answers_assembled_prompt_witness :
  chat_message env_ok "2024-02-02T00:00:00" request_a_pdf state_with_document =
    (Http200 {| resp_content := "Hello";
                resp_sources := Some ["first chunk"; "second chunk"];
                resp_session_id := "s1"; resp_success := true |},
     snd (chat_message env_ok "2024-02-02T00:00:00" request_a_pdf state_with_document))
  /\ names_file (filename request_a_pdf) = Some "a.pdf"
  /\ exists session sources,
       resp_sources {| resp_content := "Hello";
                       resp_sources := Some ["first chunk"; "second chunk"];
                       resp_session_id := "s1"; resp_success := true |} = Some sources
       /\ llm_invoke env_ok (llm session)
            (build_strict_prompt (String.concat (newline +:+ newline) sources)
               (history_of state_with_document "s1") "summarize") = Ok "Hello".
Proof.
  assert (H : chat_message env_ok "2024-02-02T00:00:00" request_a_pdf
                state_with_document =
              (Http200 {| resp_content := "Hello";
                          resp_sources := Some ["first chunk"; "second chunk"];
                          resp_session_id := "s1"; resp_success := true |},
               snd (chat_message env_ok "2024-02-02T00:00:00" request_a_pdf
                      state_with_document))) by reflexivity.
  split; [exact H | split; [reflexivity |]].
  destruct (proj1 (chat_answers_assembled_prompt env_ok "2024-02-02T00:00:00"
                     request_a_pdf state_with_document) _ _ H)
    as (session & sources & Hs & Hi & _).
  exists session, sources. split; [exact Hs | exact Hi].
Defined.

(** *** An empty filename *)

(** X21: a chat request whose filename is the empty string is served, in
    both modes, exactly as the same request without a filename: no document
    is looked up and no not-found failure is raised. *)
Theorem empty_filename_is_no_filename
    (env : Env) (now : datetime) (user_message sid : string) (st : State) :
  chat_message env now
    {| message := user_message; session_id := sid; filename := Some "" |} st =
  chat_message env now
    {| message := user_message; session_id := sid; filename := None |} st
  /\ generate_stream env now
       {| message := user_message; session_id := sid; filename := Some "" |} st =
     generate_stream env now
       {| message := user_message; session_id := sid; filename := None |} st
  /\ forall status_code detail st',
       chat_message env now
         {| message := user_message; session_id := sid; filename := Some "" |} st =
         (HTTPException status_code detail, st') ->
       status_code = 500%Z.
Proof.
  split; [reflexivity |]. split; [reflexivity |].
  intros code detail st' H.
  destruct (chat_message_cases env now
              {| message := user_message; session_id := sid; filename := Some "" |} st)
    as [(f & Hf & _) | [(e & H') | (? & ? & ? & ? & ? & _ & _ & H')]].
  - discriminate Hf.
  - rewrite H' in H. by injection H as <- _ _.
  - rewrite H' in H. discriminate.
Qed.

Lemma empty_filename_is_no_filename_witness :
  chat_message env_unconfigured "2024-02-02T00:00:00"
    {| message := "hi"; session_id := "s1"; filename := Some "" |} empty_state =
    (HTTPException 500
       "Chat error: keys.txt not found. Please create it with your API configuration.",
     empty_state)
  /\ 500%Z = 500%Z.
Proof.
  assert (H : chat_message env_unconfigured "2024-02-02T00:00:00"
                {| message := "hi"; session_id := "s1"; filename := Some "" |}
                empty_state =
              (HTTPException 500
                 "Chat error: keys.txt not found. Please create it with your API configuration.",
               empty_state)) by reflexivity.
  split; [exact H |].
  exact (proj2 (proj2 (empty_filename_is_no_filename env_unconfigured
                         "2024-02-02T00:00:00" "hi" "s1" empty_state)) _ _ _ H).
Defined.

(** *** A session keeps its identity *)

Lemma nothing_recorded_keeps_session (sid0 : string) (st st' : State)
    (sid : string) (s : Session) :
  nothing_recorded sid0 st st' ->
  chat_sessions st !! sid = Some s ->
  chat_sessions st' !! sid = Some s.
Proof.
  intros [-> | (Hnone & s0 & _ & _ & ->)] Hs; [exact Hs |].
  simpl. rewrite lookup_insert_ne; [exact Hs | congruence].
Qed.

Lemma turn_recorded_keeps_session (sid0 q a : string) (st st' : State)
    (sid : string) (s : Session) :
  turn_recorded sid0 q a st st' ->
  chat_sessions st !! sid = Some s ->
  exists s', chat_sessions st' !! sid = Some s'
    /\ created_at s' = created_at s /\ llm s' = llm s
    /\ (message_count s <= message_count s')%Z.
Proof.
  intros ((s' & Hs' & _ & Hc & Hsame) & Hother & _) Hs.
  destruct (decide (sid = sid0)) as [-> | Hne].
  - exists s'. destruct (Hsame s Hs) as [? ?].
    unfold count_of in Hc. rewrite Hs in Hc. repeat split; [done.. | lia].
  - exists s. rewrite (Hother sid Hne). by repeat split.
Qed.

Lemma serve_keeps_session
    (env : Env) (call : ApiCall) (st : State) (sid : string) (s : Session) :
  call <> CallClear sid ->
  chat_sessions st !! sid = Some s ->
  exists s', chat_sessions (serve env call st) !! sid = Some s'
    /\ created_at s' = created_at s /\ llm s' = llm s
    /\ (message_count s <= message_count s')%Z.
Proof.
  intros Hcall Hs.
  assert (Hsame : exists s', chat_sessions st !! sid = Some s'
                    /\ created_at s' = created_at s /\ llm s' = llm s
                    /\ (message_count s <= message_count s')%Z)
    by (exists s; by repeat split).
  destruct call as [| | file_name content | f | now request | now request
                    | hsid | csid | qrequest]; simpl; try exact Hsame.
  - by rewrite upload_pdf_chat_sessions.
  - by rewrite delete_file_chat_sessions.
  - destruct (chat_message_step env now request st) as [Hn | [a Hrec]].
    + exists s. rewrite (nothing_recorded_keeps_session _ _ _ _ _ Hn Hs).
      by repeat split.
    + by apply turn_recorded_keeps_session
        with (session_id request) (message request) a st.
  - destruct (generate_stream_step env now request st) as [Hn | [a Hrec]].
    + exists s. rewrite (nothing_recorded_keeps_session _ _ _ _ _ Hn Hs).
      by repeat split.
    + by apply turn_recorded_keeps_session
        with (session_id request) (message request) a st.
  - assert (Hne : csid <> sid) by congruence.
    exists s. rewrite lookup_delete_ne by done. by repeat split.
  - by rewrite ask_question_state.
Qed.

(** X22: a session, once created, stays until it is cleared and keeps its
    identity: through any requests that do not clear it, it is still
    registered, with the creation time and the model client it was created
    with, and its counter never goes down. *)
Theorem session_keeps_identity
    (env : Env) (calls : list ApiCall) (st : State) (sid : string) (s : Session) :
  Forall (fun call => call <> CallClear sid) calls ->
  chat_sessions st !! sid = Some s ->
  exists s', chat_sessions (serve_all env calls st) !! sid = Some s'
    /\ created_at s' = created_at s /\ llm s' = llm s
    /\ (message_count s <= message_count s')%Z.
Proof.
  unfold serve_all. revert st s.
  induction calls as [|call calls IH]; intros st s Hall Hs; simpl.
  - exists s. by repeat split.
  - apply Forall_cons in Hall as [Hcall Hall].
    destruct (serve_keeps_session env call st sid s Hcall Hs)
      as (s1 & Hs1 & Hc1 & Hl1 & Hn1).
    destruct (IH _ s1 Hall Hs1) as (s' & Hs' & Hc & Hl & Hn).
    exists s'. split; [exact Hs' |]. split; [congruence |]. split; [congruence | lia].
Qed.

Lemma session_keeps_identity_witness :
  Forall (fun call => call <> CallClear "s1")
    [CallChat "2024-02-02T00:00:00" request_plain; CallClear "s2"]
  /\ chat_sessions state_with_session !! "s1" = Some sample_session
  /\ exists s',
       chat_sessions
         (serve_all env_unconfigured
            [CallChat "2024-02-02T00:00:00" request_plain; CallClear "s2"]
            state_with_session) !! "s1" = Some s'
       /\ created_at s' = "2024-01-01T00:00:00".
Proof.
  assert (H : Forall (fun call => call <> CallClear "s1")
                [CallChat "2024-02-02T00:00:00" request_plain; CallClear "s2"])
    by (repeat constructor; discriminate).
  assert (Hs : chat_sessions state_with_session !! "s1" = Some sample_session)
    by reflexivity.
  split; [exact H | split; [exact Hs |]].
  destruct (session_keeps_identity env_unconfigured _ state_with_session "s1" _ H Hs)
    as (s' & Hs' & Hc & _).
  exists s'. split; [exact Hs' | exact Hc].
Defined.
